(** * hrtester: the Tester engine and the shared wire types

    A shallow embedding of the parts of [internal/shared] and
    [internal/tester] that carry the load-generation logic: the
    [TestResult] wire tuple, the JSON field decoders of the test
    parameters, the [POST /test] admission handler, the sizing of the
    results channel, the spin-up computation and the worker loop.

    Integers are [Z] with Go's wrap-around written out, Go strings are
    [string] (byte strings), Go maps are [gmap], Go arrays and slices are
    lists.  Everything the Go runtime or the network decides (clock,
    random draws, the outcome of an HTTP exchange) enters as an explicit
    argument. *)

From Stdlib Require Import ZArith Lia String Ascii List.
From Stdlib Require Import DecimalString DecimalPos.
From stdpp Require Import base option list strings gmap.

Local Open Scope string_scope.
Local Open Scope Z_scope.

#[local] Set Warnings "-register-all".

(* ===================================================================== *)
(** * Go runtime conventions *)
(* ===================================================================== *)

Module Go.

(** The three ways a Go computation ends: a value, a returned [error],
    or a run-time panic (integer division by zero, an index out of
    range, an invalid argument to a library routine). *)
Inductive result (A : Type) : Type :=
| Ok (a : A)
| Err (msg : string)
| Panic (msg : string).
Arguments Ok {A} a.
Arguments Err {A} msg.
Arguments Panic {A} msg.

Definition bind {A B} (m : result A) (k : A -> result B) : result B :=
  match m with
  | Ok a => k a
  | Err e => Err e
  | Panic e => Panic e
  end.

Definition is_ok {A} (m : result A) : bool :=
  match m with Ok _ => true | _ => false end.

(** Conversions to the unsigned fixed-width types keep the low bits. *)
Definition uint8 (z : Z) : Z := z mod 2 ^ 8.
Definition uint16 (z : Z) : Z := z mod 2 ^ 16.

(** [strconv.Itoa] / [strconv.FormatInt(_, 10)]: shortest decimal
    text, with a leading minus sign for negative numbers. *)
Definition Itoa (z : Z) : string := NilZero.string_of_int (Z.to_int z).

(** [strings.HasSuffix]. *)
Definition HasSuffix (s suffix : string) : bool :=
  let n := String.length s in
  let k := String.length suffix in
  (k <=? n)%nat && String.eqb (substring (n - k) k s) suffix.

(** The double quote byte. *)
Definition dquote : string := String "034"%char EmptyString.

(** Nanoseconds per unit, as in package [time]. *)
Definition Millisecond : Z := 1000000.
Definition Second : Z := 1000 * Millisecond.

End Go.

(** [x ← m; k] sequences Go computations: an error or a panic of [m]
    ends the whole computation. *)
#[global] Instance result_bind : MBind Go.result :=
  fun A B k m => Go.bind m k.
#[global] Instance result_ret : MRet Go.result := @Go.Ok.

(* ===================================================================== *)
(** * Decoded JSON and the standard-library routines the decoders call *)
(* ===================================================================== *)

Module Json.
Import Go.

(** A JSON document after [encoding/json] has scanned it. *)
Inductive value : Type :=
| Null
| Bool (b : bool)
| Number (text : string)
| Str (s : string)
| Array (items : list value)
| Object (fields : list (string * value)).

(** [var s string; json.Unmarshal(data, &s)]: a JSON string is stored,
    [null] leaves the zero value and is no error, every other kind is
    an [UnmarshalTypeError]. *)
Definition Unmarshal_string (data : value) : result string :=
  match data with
  | Str s => Ok s
  | Null => Ok EmptyString
  | _ => Err "json: cannot unmarshal value into Go value of type string"
  end.

End Json.

Module Strconv.
Import Go.

(** [strconv.ParseUint(s, 10, bitSize)] with [err == nil]: a non-empty
    run of ASCII digits whose value fits in [bitSize] bits.  No sign,
    no underscore, no blank is accepted; a value that does not fit is
    a range error. *)
Definition ParseUint (s : string) (bitSize : Z) : option Z :=
  match s with
  | EmptyString => None
  | _ =>
      match NilEmpty.uint_of_string s with
      | Some d =>
          let n := Z.of_uint d in
          if n <=? 2 ^ bitSize - 1 then Some n else None
      | None => None
      end
  end.

End Strconv.

(* ===================================================================== *)
(** * Package shared: Duration and TestResult *)
(* ===================================================================== *)

Module Shared.
Import Go.

(** [type Duration time.Duration]: signed nanoseconds. *)
Definition Duration := Z.

(** [time.Duration.Milliseconds]: integer division truncating toward
    zero. *)
Definition Milliseconds (d : Duration) : Z := Z.quot d Millisecond.

(** [Duration.String]. *)
Definition Duration_String (d : Duration) : string :=
  Itoa (Milliseconds d) ++ "ms".

Definition duration_units : list string := ["ms"; "s"; "m"].

Section DurationDecoding.
(** [time.ParseDuration] with [err == nil], in nanoseconds.  It reads
    an optional sign followed by one or more numbers with a unit. *)
Variable ParseDuration : string -> option Z.

(** [Duration.UnmarshalJSON]: the text must end in one of the three
    units and be accepted by [time.ParseDuration]; the value is
    stored as parsed. *)
Definition Duration_UnmarshalJSON (data : Json.value) : result Duration :=
  match Json.Unmarshal_string data with
  | Ok s =>
      if negb (existsb (HasSuffix s) duration_units) then
        Err "invalid duration format: must end with 'ms', 's', or 'm'"
      else
        match ParseDuration s with
        | Some value => Ok value
        | None => Err "invalid duration value"
        end
  | Err e => Err ("invalid JSON string: " ++ e)
  | Panic e => Panic e
  end.
End DurationDecoding.

Definition attrNames : list string :=
  [ "ReqTime"; "TestName"; "ReqID"; "ReqNum"; "ReqMethod"; "ReqPath";
    "RespCode"; "RoundDuration"; "TimedOut" ].

Definition trRequestTime : nat := 0.
Definition trTestName : nat := 1.
Definition trRequestID : nat := 2.
Definition trRequestNum : nat := 3.
Definition trRequestMethod : nat := 4.
Definition trRequestPath : nat := 5.
Definition trResponseCode : nat := 6.
Definition trRoundDuration : nat := 7.
Definition trTimedOut : nat := 8.

(** [type TestResult [len(attrNames)]string]: an array of nine strings,
    here a list that every operation keeps at length nine. *)
Definition TestResult := list string.

(** The zero value of the array ([var tRes shared.TestResult]). *)
Definition zeroTestResult : TestResult :=
  replicate (length attrNames) EmptyString.

Definition col (i : nat) (r : TestResult) : string := nth i r EmptyString.

(** [url.Values] is [map[string][]string]. *)
Abbreviation Values := (gmap string (list string)).

(** [url.Values.Get]: the first value of the key, or the empty string. *)
Definition Values_Get (vs : Values) (k : string) : string :=
  match vs !! k with
  | Some (v :: _) => v
  | _ => EmptyString
  end.

(** [url.Values.Set]: replaces whatever the key held by one value. *)
Definition Values_Set (k v : string) (vs : Values) : Values :=
  <[k := [v]]> vs.

(** [NewTestResult]: [r[i] = vs.Get(attrNames[i])] for every column. *)
Definition NewTestResult (vs : Values) : TestResult :=
  map (Values_Get vs) attrNames.

(** [TestResult.URLValues]: [m.Set(attrNames[i], r[i])] in column
    order, starting from an empty map. *)
Definition URLValues (r : TestResult) : Values :=
  fold_left (fun m '(i, n) => Values_Set n (col i r) m)
            (imap (fun i n => (i, n)) attrNames) ∅.

Definition SetTestName (name : string) (r : TestResult) : TestResult :=
  <[trTestName := name]> r.
(** [SetRequestTime] receives the text [t.Format(time.DateTime)]. *)
Definition SetRequestTime (formatted : string) (r : TestResult) : TestResult :=
  <[trRequestTime := formatted]> r.
(** [SetRequestID] receives the text [id.String()]. *)
Definition SetRequestID (id : string) (r : TestResult) : TestResult :=
  <[trRequestID := id]> r.
Definition SetRequestNum (num : Z) (r : TestResult) : TestResult :=
  <[trRequestNum := Itoa num]> r.
Definition SetRequesMethod (method : string) (r : TestResult) : TestResult :=
  <[trRequestMethod := method]> r.
Definition SetRequestPath (path : string) (r : TestResult) : TestResult :=
  <[trRequestPath := path]> r.
Definition SetResponseCode (code : Z) (r : TestResult) : TestResult :=
  <[trResponseCode := Itoa code]> r.
Definition SetRoundDuration (d : Duration) (r : TestResult) : TestResult :=
  <[trRoundDuration := Duration_String d]> r.
Definition SetTimedOut (v : bool) (r : TestResult) : TestResult :=
  if v then <[trTimedOut := "true"]> r else <[trTimedOut := "false"]> r.

End Shared.

Module SharedFacts.
Import Go Shared.

Lemma NewTestResult_length (vs : Values) :
  length (NewTestResult vs) = 9%nat.
Proof. reflexivity. Qed.

(** Membership in a list of distinct literals, refuted or proved by
    walking the list. *)
Ltac walk_elem H :=
  repeat (apply elem_of_cons in H as [-> | H]; [try congruence |]);
  try (apply elem_of_nil in H; contradiction).

Ltac in_literal_list := apply list_elem_of_In; simpl; tauto.

(** Reading the map built by [URLValues]: the nine attribute names are
    bound to one-element slices, nothing else is bound. *)
Lemma URLValues_NewTestResult_lookup (vs : Values) (k : string) :
  URLValues (NewTestResult vs) !! k =
    if decide (k ∈ attrNames) then Some [Values_Get vs k] else None.
Proof.
  unfold URLValues, NewTestResult, attrNames, Values_Set, col. simpl.
  repeat match goal with
  | |- context [ <[?n := _]> _ !! k ] =>
      destruct (decide (n = k)) as [<- | ?];
      [ rewrite lookup_insert_eq; case_decide as Hin;
        [ reflexivity | exfalso; apply Hin; in_literal_list ]
      | rewrite lookup_insert_ne by assumption ]
  end.
  rewrite lookup_empty. case_decide as Hin; [| reflexivity].
  exfalso. walk_elem Hin.
Qed.

(** C9. Wire round trip of a record: when each of the nine attribute
    keys of a form-value map [vs] is bound to exactly one value,
    [URLValues (NewTestResult vs)] is [vs] restricted to those nine
    keys. *)
Theorem URLValues_NewTestResult_roundtrip (vs : Values) :
  (forall k, k ∈ attrNames -> exists v, vs !! k = Some [v]) ->
  URLValues (NewTestResult vs) = filter (fun kv => kv.1 ∈ attrNames) vs.
Proof.
  intros Hsingle. apply map_eq. intros k.
  rewrite URLValues_NewTestResult_lookup.
  destruct (vs !! k) as [l |] eqn:Hk.
  - case_decide as Hin.
    + destruct (Hsingle k Hin) as [v Hv].
      symmetry. apply map_lookup_filter_Some. split; [| exact Hin].
      unfold Values_Get. rewrite Hv. reflexivity.
    + symmetry. apply map_lookup_filter_None. right.
      intros x _. exact Hin.
  - case_decide as Hin.
    + destruct (Hsingle k Hin) as [v Hv]. congruence.
    + symmetry. apply map_lookup_filter_None. left. exact Hk.
Qed.

(** [Duration.UnmarshalJSON] stores what [time.ParseDuration] returns,
    whatever its sign. *)
Lemma Duration_UnmarshalJSON_stores_parsed
    (ParseDuration : string -> option Z) (s : string) (value : Z) :
  existsb (HasSuffix s) duration_units = true ->
  ParseDuration s = Some value ->
  Duration_UnmarshalJSON ParseDuration (Json.Str s) = Ok value.
Proof.
  intros Hunit Hparse. unfold Duration_UnmarshalJSON, Json.Unmarshal_string.
  now rewrite Hunit, Hparse.
Qed.

(** [time.ParseDuration] on the one text used below. *)
Definition parse_minus_5s (s : string) : option Z :=
  if String.eqb s "-5s" then Some (-5 * Second) else None.

Example Duration_minus_5s :
  Duration_UnmarshalJSON parse_minus_5s (Json.Str "-5s")
  = Ok (-5000000000).
Proof. reflexivity. Qed.

(** A form as the Collector receives it: the nine attributes plus a
    key that is not part of the schema. *)
Definition sample_form : Values :=
  list_to_map
    [ ("ReqTime", ["2025-03-01 10:00:00"]); ("TestName", ["t1"]);
      ("ReqID", ["6f1c"]); ("ReqNum", ["7"]); ("ReqMethod", ["GET"]);
      ("ReqPath", ["/x"]); ("RespCode", ["200"]);
      ("RoundDuration", ["12ms"]); ("TimedOut", ["false"]);
      ("Extra", ["dropped"]) ].

Lemma URLValues_NewTestResult_roundtrip_witness :
  URLValues (NewTestResult sample_form)
  = filter (fun kv => kv.1 ∈ attrNames) sample_form
  /\ URLValues (NewTestResult sample_form) !! "Extra" = None
  /\ sample_form !! "Extra" = Some ["dropped"].
Proof.
  split; [| split; reflexivity].
  apply (URLValues_NewTestResult_roundtrip sample_form).
  intros k Hin. unfold attrNames in Hin.
  repeat (apply elem_of_cons in Hin as [-> | Hin];
          [eexists; reflexivity |]).
  apply elem_of_nil in Hin. contradiction.
Defined.

End SharedFacts.

(* ===================================================================== *)
(** * Package tester: the test parameters and their decoders *)
(* ===================================================================== *)

Module Params.
Import Go.

(** ** pace *)

(** [type pace uint16], requests per minute. *)
Definition pace := Z.

(** [math.Round(float64(v) / 60)] for [v] in the 16-bit range: the
    quotient is either exactly [k + 1/2] (then [float64] holds it
    exactly and [Round] goes away from zero) or at least [1/60] away
    from every half-integer, far more than the rounding error of one
    division; so the result is the integer [floor ((v + 30) / 60)]. *)
Definition round_div60 (v : Z) : Z := (v + 30) / 60.

Definition pace_units : list string := ["rps"; "rpm"; "rph"].

(** [pace.UnmarshalJSON]; [p] is the value the receiver points to on
    entry, [data] the JSON value handed to the method. *)
Definition pace_UnmarshalJSON (p : pace) (data : Json.value) : result pace :=
  match Json.Unmarshal_string data with
  | Ok s =>
      if negb (existsb (HasSuffix s) pace_units) then
        Err "invalid duration format: must end with 'rps', 'rpm', or 'rph'"
      else
        let n := String.length s in
        let v := substring 0 (n - 3) s in
        let u := substring (n - 3) 3 s in
        let bad := Err ("invalid pace value: '" ++ s ++ "'") in
        if String.eqb u "rph" then
          match Strconv.ParseUint v 16 with
          | Some x => Ok (uint16 (round_div60 x))
          | None => bad
          end
        else if String.eqb u "rpm" then
          match Strconv.ParseUint v 16 with
          | Some x => Ok (uint16 x)
          | None => bad
          end
        else if String.eqb u "rps" then
          match Strconv.ParseUint v 16 with
          | Some x => Ok (uint16 (x * 60))
          | None => bad
          end
        else Ok p
  | Err e => Err ("invalid JSON string: " ++ e)
  | Panic e => Panic e
  end.

(** [pace.MarshalJSON]. *)
Definition pace_MarshalJSON (p : pace) : string :=
  dquote ++ Itoa p ++ "rpm" ++ dquote.

(** [pace.String]. *)
Definition pace_String (p : pace) : string := Itoa p ++ "rpm".

(** ** choice *)

(** [type choice string]. *)
Definition choice := string.

(** [choice.UnmarshalJSON]: called only when the key is present. *)
Definition choice_UnmarshalJSON (data : Json.value) : result choice :=
  match Json.Unmarshal_string data with
  | Ok s =>
      if String.eqb s "roundrobin" || String.eqb s "random" then Ok s
      else Err "invalid choice value: must be 'roundrobin' or 'random'"
  | Err e => Err ("invalid JSON string: " ++ e)
  | Panic e => Panic e
  end.

(** ** request templates *)

(** [http.Header] is [map[string][]string]. *)
Abbreviation HttpHeader := (gmap string (list string)).

Record request : Type := {
  Method : string;
  Path : string;
  Header : HttpHeader;
  Body : string
}.

(** The zero value of [request] ([var r request]). *)
Definition zero_request : request :=
  {| Method := EmptyString; Path := EmptyString; Header := ∅;
     Body := EmptyString |}.

Section HeaderDecoding.
(** [textproto.CanonicalMIMEHeaderKey], which [Header.Set], [Add],
    [Get] and [Values] apply to the key. *)
Variable CanonicalMIMEHeaderKey : string -> string.

Definition Header_Set (k v : string) (h : HttpHeader) : HttpHeader :=
  <[CanonicalMIMEHeaderKey k := [v]]> h.

Definition Header_Add (k v : string) (h : HttpHeader) : HttpHeader :=
  <[CanonicalMIMEHeaderKey k :=
      (default [] (h !! CanonicalMIMEHeaderKey k) ++ [v])%list]> h.

Definition Header_Values (h : HttpHeader) (k : string) : list string :=
  default [] (h !! CanonicalMIMEHeaderKey k).

(** The inner loop [for _, v := range v]: every element must be a
    string; the first one that is not ends the decoding with an
    error that names the header. *)
Fixpoint add_elements (k : string) (items : list Json.value) (h : HttpHeader)
  : result HttpHeader :=
  match items with
  | [] => Ok h
  | Json.Str s :: rest => add_elements k rest (Header_Add k s h)
  | _ :: _ => Err ("invalid header " ++ k ++ " value")
  end.

(** One turn of [for k, raw := range aux.Header]: the type switch has
    a case for [string] and one for [[]any], and no default. *)
Definition header_entry (k : string) (raw : Json.value) (h : HttpHeader)
  : result HttpHeader :=
  match raw with
  | Json.Str v => Ok (Header_Set k v h)
  | Json.Array items => add_elements k items h
  | _ => Ok h
  end.

Fixpoint header_entries (entries : list (string * Json.value)) (h : HttpHeader)
  : result HttpHeader :=
  match entries with
  | [] => Ok h
  | (k, raw) :: rest =>
      h' ← header_entry k raw h; header_entries rest h'
  end.

(** [request.UnmarshalJSON] after [json.Unmarshal(data, &aux)] has
    succeeded: [alias] holds the plain fields, [aux_header] the raw
    header entries in the order the [range] visits them. *)
Definition request_UnmarshalJSON
    (alias : request) (aux_header : list (string * Json.value))
  : result request :=
  h ← header_entries aux_header ∅;
  mret {| Method := Method alias; Path := Path alias; Header := h;
          Body := Body alias |}.

End HeaderDecoding.

(** ** params *)

Record params : Type := {
  Name : string;
  Duration : Shared.Duration;
  Pace : pace;
  ParallelTesters : Z;          (* uint8 *)
  Timeout : Shared.Duration;
  Choice : choice;
  ReqSchema : string;
  ReqVersion : Z * Z;           (* [2]uint8 *)
  ReqIDHeader : string;
  Requests : list request
}.

Definition zero_params : params :=
  {| Name := EmptyString; Duration := 0; Pace := 0; ParallelTesters := 0;
     Timeout := 0; Choice := EmptyString; ReqSchema := EmptyString;
     ReqVersion := (0, 0); ReqIDHeader := EmptyString; Requests := [] |}.

End Params.

Module ParamsFacts.
Import Go Params.

(** ** Splitting a text into value and three-byte unit *)

Lemma length_append (a b : string) :
  String.length (a ++ b) = (String.length a + String.length b)%nat.
Proof. induction a as [| c a IH]; simpl; [reflexivity | now rewrite IH]. Qed.

Lemma substring_all (s : string) : substring 0 (String.length s) s = s.
Proof. induction s as [| c s IH]; simpl; [reflexivity | now rewrite IH]. Qed.

Lemma substring_prefix (a b : string) :
  substring 0 (String.length a) (a ++ b) = a.
Proof.
  induction a as [| c a IH]; simpl.
  - destruct b; reflexivity.
  - now rewrite IH.
Qed.

Lemma substring_suffix (a b : string) :
  substring (String.length a) (String.length b) (a ++ b) = b.
Proof.
  induction a as [| c a IH]; simpl; [apply substring_all | exact IH].
Qed.

Lemma substring_unit (a u : string) :
  String.length u = 3%nat ->
  substring (String.length a) 3 (a ++ u) = u.
Proof. intros <-. apply substring_suffix. Qed.

Lemma HasSuffix_append (X u u' : string) :
  String.length u' = String.length u ->
  HasSuffix (X ++ u) u' = String.eqb u u'.
Proof.
  intros Hlen. unfold HasSuffix. rewrite length_append, Hlen.
  replace (String.length X + String.length u - String.length u)%nat
    with (String.length X) by lia.
  rewrite substring_suffix.
  replace (String.length u <=? String.length X + String.length u)%nat
    with true by (symmetry; apply Nat.leb_le; lia).
  reflexivity.
Qed.

(** ** What [strconv.ParseUint] returns *)

Lemma of_uint_nonneg (d : Decimal.uint) : 0 <= Z.of_uint d.
Proof. unfold Z.of_uint. apply N2Z.is_nonneg. Qed.

Lemma ParseUint_range (s : string) (x : Z) :
  Strconv.ParseUint s 16 = Some x -> 0 <= x <= 65535.
Proof.
  unfold Strconv.ParseUint. destruct s as [| c s]; [discriminate |].
  destruct (NilEmpty.uint_of_string (String c s)) as [d |]; [| discriminate].
  simpl. destruct (Z.leb_spec (Z.of_uint d) (2 ^ 16 - 1)) as [Hle | Hgt];
    [| discriminate].
  intros [= <-]. pose proof (of_uint_nonneg d). lia.
Qed.

Lemma string_of_uint_nonempty (d : Decimal.uint) :
  d <> Decimal.Nil -> NilEmpty.string_of_uint d <> EmptyString.
Proof. destruct d; simpl; congruence. Qed.

(** Reading back the decimal text of a 16-bit value. *)
Lemma ParseUint_Itoa (x : Z) :
  0 <= x <= 65535 -> Strconv.ParseUint (Itoa x) 16 = Some x.
Proof.
  intros Hx. unfold Itoa, Strconv.ParseUint.
  assert (Hd : exists d, Z.to_int x = Decimal.Pos d /\ d <> Decimal.Nil
                         /\ Z.of_uint d = x).
  { destruct x as [| q | q]; simpl.
    - eexists; repeat split; congruence.
    - exists (Pos.to_uint q). repeat split.
      + intros Hnil. pose proof (DecimalPos.Unsigned.of_to q) as Hq.
        rewrite Hnil in Hq. discriminate.
      + unfold Z.of_uint. rewrite DecimalPos.Unsigned.of_to. reflexivity.
    - lia. }
  destruct Hd as (d & -> & Hnil & Hval). simpl.
  assert (Hs : NilZero.string_of_uint d = NilEmpty.string_of_uint d)
    by (destruct d; congruence || reflexivity).
  rewrite Hs.
  destruct (NilEmpty.string_of_uint d) as [| c s] eqn:Hstr.
  - exfalso. now apply (string_of_uint_nonempty d).
  - rewrite <- Hstr, NilEmpty.usu, Hval.
    destruct (Z.leb_spec x (2 ^ 16 - 1)); [reflexivity | lia].
Qed.

(** ** The three units *)

Ltac unit_case H :=
  unfold pace_UnmarshalJSON, pace_units; simpl Json.Unmarshal_string;
  cbv beta iota; simpl existsb;
  rewrite !HasSuffix_append by reflexivity; simpl negb; cbv iota;
  rewrite length_append;
  match goal with
  | |- context [ (String.length ?X + String.length ?u - 3)%nat ] =>
      replace (String.length X + String.length u - 3)%nat
        with (String.length X) by (simpl; lia)
  end;
  rewrite substring_prefix;
  rewrite substring_unit by reflexivity;
  simpl String.eqb; cbv iota; rewrite H.

Lemma pace_rpm (p0 : pace) (X : string) (x : Z) :
  Strconv.ParseUint X 16 = Some x ->
  pace_UnmarshalJSON p0 (Json.Str (X ++ "rpm")) = Ok x.
Proof.
  intros H. pose proof (ParseUint_range _ _ H) as Hx.
  unit_case H. unfold uint16. rewrite Z.mod_small by lia. reflexivity.
Qed.

Lemma pace_rph (p0 : pace) (X : string) (x : Z) :
  Strconv.ParseUint X 16 = Some x ->
  pace_UnmarshalJSON p0 (Json.Str (X ++ "rph")) = Ok (round_div60 x).
Proof.
  intros H. pose proof (ParseUint_range _ _ H) as Hx.
  unit_case H. unfold uint16, round_div60.
  rewrite Z.mod_small; [reflexivity |].
  split; [apply Z.div_pos; lia |].
  apply Z.div_lt_upper_bound; lia.
Qed.

Lemma pace_rps (p0 : pace) (X : string) (x : Z) :
  Strconv.ParseUint X 16 = Some x ->
  pace_UnmarshalJSON p0 (Json.Str (X ++ "rps")) = Ok (uint16 (x * 60)).
Proof. intros H. unit_case H. reflexivity. Qed.

Lemma pace_rejects (p0 : pace) (X u : string) :
  u ∈ pace_units ->
  Strconv.ParseUint X 16 = None ->
  pace_UnmarshalJSON p0 (Json.Str (X ++ u))
  = Err ("invalid pace value: '" ++ (X ++ u) ++ "'").
Proof.
  intros Hu H. unfold pace_units in Hu.
  repeat (apply elem_of_cons in Hu as [-> | Hu];
          [unit_case H; reflexivity |]).
  apply elem_of_nil in Hu. contradiction.
Qed.

Lemma round_div60_nearest (x : Z) :
  -30 < 60 * round_div60 x - x <= 30.
Proof.
  unfold round_div60.
  pose proof (Z.div_mod (x + 30) 60 ltac:(lia)).
  pose proof (Z.mod_pos_bound (x + 30) 60 ltac:(lia)). lia.
Qed.

Lemma append_assoc (a b c : string) : (a ++ b) ++ c = a ++ (b ++ c).
Proof.
  induction a as [| x a IH]; [reflexivity |].
  change (String x ((a ++ b) ++ c) = String x (a ++ (b ++ c))).
  now rewrite IH.
Qed.

(** The literal pairs of the specification's parsing table. *)
Example pace_60rpm : pace_UnmarshalJSON 0 (Json.Str "60rpm") = Ok 60.
Proof. reflexivity. Qed.
Example pace_1rps : pace_UnmarshalJSON 0 (Json.Str "1rps") = Ok 60.
Proof. reflexivity. Qed.
Example pace_3600rph : pace_UnmarshalJSON 0 (Json.Str "3600rph") = Ok 60.
Proof. reflexivity. Qed.
Example pace_120rph : pace_UnmarshalJSON 0 (Json.Str "120rph") = Ok 2.
Proof. reflexivity. Qed.
Example pace_null : is_ok (pace_UnmarshalJSON 7 Json.Null) = false.
Proof. reflexivity. Qed.
Example pace_89rph_rounds_down :
  pace_UnmarshalJSON 0 (Json.Str "89rph") = Ok 1.
Proof. reflexivity. Qed.
Example pace_90rph_rounds_up :
  pace_UnmarshalJSON 0 (Json.Str "90rph") = Ok 2.
Proof. reflexivity. Qed.

(** C5 (as stated, refuted). Not every numeric text is parsed to the
    stated value: ["70000rpm"] is refused because the number must fit
    16 bits, and ["1093rps"] is stored as 44, the low 16 bits of
    65580. *)
Lemma pace_UnmarshalJSON_not_every_number :
  pace_UnmarshalJSON 0 (Json.Str "70000rpm")
    = Err "invalid pace value: '70000rpm'"
  /\ pace_UnmarshalJSON 0 (Json.Str "70000rpm") <> Ok 70000
  /\ pace_UnmarshalJSON 0 (Json.Str "1093rps") = Ok 44
  /\ pace_UnmarshalJSON 0 (Json.Str "1093rps") <> Ok (1093 * 60).
Proof. repeat split; try reflexivity; discriminate. Qed.

(** C5 (amended). For every text [X] that [strconv.ParseUint] reads as
    a 16-bit number [x] (a non-empty run of decimal digits of value at
    most 65535): ["Xrpm"] parses to [x]; ["Xrph"] parses to [x / 60]
    rounded to nearest, halves going up; ["Xrps"] parses to [x * 60]
    whenever that product fits 16 bits; the value [x] is written back
    as its decimal text followed by [rpm] (quoted in JSON), and that
    text parses back to [x].  A text whose numeric part
    [strconv.ParseUint] refuses is rejected with an error, for each of
    the three units. *)
Theorem pace_UnmarshalJSON_units (p0 : pace) (X : string) (x : Z) :
  Strconv.ParseUint X 16 = Some x ->
  pace_UnmarshalJSON p0 (Json.Str (X ++ "rpm")) = Ok x
  /\ pace_UnmarshalJSON p0 (Json.Str (X ++ "rph")) = Ok (round_div60 x)
  /\ -30 < 60 * round_div60 x - x <= 30
  /\ (x * 60 <= 65535 ->
      pace_UnmarshalJSON p0 (Json.Str (X ++ "rps")) = Ok (x * 60))
  /\ pace_String x = Itoa x ++ "rpm"
  /\ pace_MarshalJSON x = dquote ++ pace_String x ++ dquote
  /\ pace_UnmarshalJSON p0 (Json.Str (pace_String x)) = Ok x
  /\ (forall Y u, u ∈ pace_units -> Strconv.ParseUint Y 16 = None ->
        is_ok (pace_UnmarshalJSON p0 (Json.Str (Y ++ u))) = false).
Proof.
  intros H. pose proof (ParseUint_range _ _ H) as Hx.
  split; [now apply pace_rpm |].
  split; [now apply pace_rph |].
  split; [apply round_div60_nearest |].
  split.
  { intros Hfit. rewrite (pace_rps p0 X x H). unfold uint16.
    rewrite Z.mod_small by lia. reflexivity. }
  split; [reflexivity |].
  split; [unfold pace_MarshalJSON, pace_String;
          now rewrite append_assoc |].
  split; [unfold pace_String; apply pace_rpm; now apply ParseUint_Itoa |].
  intros Y u Hu HY. now rewrite pace_rejects.
Qed.

Lemma pace_UnmarshalJSON_units_witness :
  Strconv.ParseUint "1092" 16 = Some 1092
  /\ pace_UnmarshalJSON 0 (Json.Str "1092rpm") = Ok 1092
  /\ pace_UnmarshalJSON 0 (Json.Str "1092rph") = Ok 18
  /\ pace_UnmarshalJSON 0 (Json.Str "1092rps") = Ok 65520
  /\ pace_String 1092 = "1092rpm".
Proof.
  split; [reflexivity |].
  destruct (pace_UnmarshalJSON_units 0 "1092" 1092 eq_refl)
    as (Hm & Hh & _ & Hs & Hstr & _).
  split; [exact Hm |].
  split; [exact Hh |].
  split; [apply Hs; lia | exact Hstr].
Defined.

(** ** Header values of a request template *)

Definition is_Str (v : Json.value) : bool :=
  match v with Json.Str _ => true | _ => false end.

Section HeaderFacts.
Variable canon : string -> string.

Lemma Header_Values_Set (k v : string) (h : HttpHeader) :
  Header_Values canon (Header_Set canon k v h) k = [v].
Proof. unfold Header_Values, Header_Set. now rewrite lookup_insert_eq. Qed.

Lemma Header_Values_Add (k v : string) (h : HttpHeader) :
  Header_Values canon (Header_Add canon k v h) k
  = (Header_Values canon h k ++ [v])%list.
Proof. unfold Header_Values, Header_Add. now rewrite lookup_insert_eq. Qed.

(** A JSON string is stored with [Set]: the header has that one
    value afterwards, whatever it held before. *)
Lemma header_entry_string (k v : string) (h : HttpHeader) :
  header_entry canon k (Json.Str v) h = Ok (Header_Set canon k v h)
  /\ Header_Values canon (Header_Set canon k v h) k = [v].
Proof. split; [reflexivity | apply Header_Values_Set]. Qed.

(** An array of strings is stored with one [Add] per element, so the
    values are appended in the order of the array. *)
Lemma header_entry_strings (k : string) (ss : list string) (h : HttpHeader) :
  exists h',
    header_entry canon k (Json.Array (map Json.Str ss)) h = Ok h'
    /\ Header_Values canon h' k = (Header_Values canon h k ++ ss)%list.
Proof.
  simpl. revert h. induction ss as [| s ss IH]; intros h; simpl.
  - exists h. split; [reflexivity | now rewrite app_nil_r].
  - destruct (IH (Header_Add canon k s h)) as (h' & Hrun & Hvals).
    exists h'. split; [exact Hrun |].
    rewrite Hvals, Header_Values_Add, <- app_assoc. reflexivity.
Qed.

(** An array with an element that is not a string is refused, and the
    error names the header. *)
Lemma header_entry_mixed_array (k : string) (items : list Json.value)
    (h : HttpHeader) :
  forallb is_Str items = false ->
  header_entry canon k (Json.Array items) h
  = Err ("invalid header " ++ k ++ " value").
Proof.
  simpl. revert h. induction items as [| v items IH]; intros h Hbad;
    [discriminate |].
  destruct v; simpl in *; try reflexivity. now apply IH.
Qed.

(** A value that is neither a string nor an array falls through the
    type switch: no error, and the header map is left as it was. *)
Lemma header_entry_other (k : string) (raw : Json.value) (h : HttpHeader) :
  is_Str raw = false ->
  (forall items, raw <> Json.Array items) ->
  header_entry canon k raw h = Ok h.
Proof.
  intros Hs Ha. destruct raw; try reflexivity; [discriminate |].
  now destruct (Ha items).
Qed.

End HeaderFacts.

(** Keys that are already in canonical form, such as [Connection] and
    [X-Test], are their own canonical form. *)
Definition canonical_key (k : string) : string := k.

Definition status_request : request :=
  {| Method := "GET"; Path := "/api/status"; Header := ∅;
     Body := EmptyString |}.

(** The template of the repository's own test, in both orders in which
    the map of raw entries may be visited. *)
Example request_test_template :
  forall entries,
    entries = [ ("Connection", Json.Str "keep-alive");
                ("X-Test", Json.Array
                   [Json.Str "a"; Json.Str "b"; Json.Str "c"]) ]
    \/ entries = [ ("X-Test", Json.Array
                      [Json.Str "a"; Json.Str "b"; Json.Str "c"]);
                   ("Connection", Json.Str "keep-alive") ] ->
    exists r,
      request_UnmarshalJSON canonical_key status_request entries = Ok r
      /\ Header_Values canonical_key (Header r) "Connection"
         = ["keep-alive"]
      /\ Header_Values canonical_key (Header r) "X-Test" = ["a"; "b"; "c"].
Proof.
  intros entries [-> | ->]; eexists; (split; [reflexivity |]);
    split; reflexivity.
Qed.

Example request_number_in_array :
  request_UnmarshalJSON canonical_key status_request
    [("X-Test", Json.Array [Json.Str "a"; Json.Number "5"])]
  = Err "invalid header X-Test value".
Proof. reflexivity. Qed.

(** C6 (the code at the failing inputs). A header whose value is a
    number, a boolean, [null] or an object does not make the decoding
    of the template fail: the decoder returns the template without
    error and without that header. *)
Theorem request_UnmarshalJSON_accepts_non_string_header
    (canon : string -> string) :
  let decoded := Ok {| Method := "GET"; Path := "/api/status";
                       Header := ∅; Body := EmptyString |} in
  request_UnmarshalJSON canon status_request
    [("X-Test", Json.Number "5")] = decoded
  /\ request_UnmarshalJSON canon status_request
       [("X-Test", Json.Bool true)] = decoded
  /\ request_UnmarshalJSON canon status_request
       [("X-Test", Json.Null)] = decoded
  /\ request_UnmarshalJSON canon status_request
       [("X-Test", Json.Object [("a", Json.Str "b")])] = decoded.
Proof. repeat split. Qed.

End ParamsFacts.

(* ===================================================================== *)
(** * Package tester: the service *)
(* ===================================================================== *)

Module Http.
Import Go.

Definition StatusOK : Z := 200.
Definition StatusBadRequest : Z := 400.
Definition StatusMethodNotAllowed : Z := 405.
Definition StatusServiceUnavailable : Z := 503.

(** What a handler has done to its [http.ResponseWriter]: the status
    line once it is written, the header map, and the body lines. *)
Record ResponseWriter : Type := {
  wroteHeader : option Z;
  header : gmap string (list string);
  written : list string
}.

Definition NewRecorder : ResponseWriter :=
  {| wroteHeader := None; header := ∅; written := [] |}.

(** [w.WriteHeader(code)]: the first call fixes the status; a later
    call is superfluous and changes nothing. *)
Definition WriteHeader (code : Z) (w : ResponseWriter) : ResponseWriter :=
  match wroteHeader w with
  | Some _ => w
  | None => {| wroteHeader := Some code; header := header w;
               written := written w |}
  end.

Definition SetHeader (k v : string) (w : ResponseWriter) : ResponseWriter :=
  match wroteHeader w with
  | Some _ => w
  | None => {| wroteHeader := None; header := <[k := [v]]> (header w);
               written := written w |}
  end.

(** [fmt.Fprintln(w, line)]: writing a body implies the status line. *)
Definition Fprintln (line : string) (w : ResponseWriter) : ResponseWriter :=
  let w := WriteHeader StatusOK w in
  {| wroteHeader := wroteHeader w; header := header w;
     written := (written w ++ [line])%list |}.

(** [http.Error(w, msg, code)]. *)
Definition Error (msg : string) (code : Z) (w : ResponseWriter)
  : ResponseWriter :=
  let w := SetHeader "Content-Type" "text/plain; charset=utf-8" w in
  let w := SetHeader "X-Content-Type-Options" "nosniff" w in
  Fprintln msg (WriteHeader code w).

End Http.

Module Tester.
Import Go Shared Params.

Definition statusReady : Z := 0.
Definition statusTesting : Z := 1.
Definition statusStopping : Z := 2.

Definition idsBufferSize : Z := 100.
Definition resultsBufferSize : Z := 20.

Definition spinupFactor : Z := 4.
Definition spinupMaxDuration : Z := 10 * Second.

(** A [context.WithDeadline] value. *)
Record context : Type := { deadline : Z }.

(** The goroutines the service launches; a channel is known by its
    capacity. *)
Inductive goroutine : Type :=
| Sender (results_cap : Z)
| IDGen (ids_cap : Z)
| Testers
| Supervisor.

(** The fields of [service] that a test run touches.  [status] is the
    atomic word, times are nanoseconds on the wall clock, a channel
    field is [None] while nil, and [launched] lists the goroutines
    started so far, oldest first. *)
Record service : Type := {
  status : Z;
  params : Params.params;
  testCtx : option context;
  startedAt : Z;
  runningUntil : Z;
  ids : option Z;
  results : option Z;
  launched : list goroutine
}.

Definition NewService : service :=
  {| status := statusReady; params := zero_params; testCtx := None;
     startedAt := 0; runningUntil := 0; ids := None; results := None;
     launched := [] |}.

Definition set_status (v : Z) (s : service) : service :=
  {| status := v; params := params s; testCtx := testCtx s;
     startedAt := startedAt s; runningUntil := runningUntil s;
     ids := ids s; results := results s; launched := launched s |}.

Definition set_params (p : Params.params) (s : service) : service :=
  {| status := status s; params := p; testCtx := testCtx s;
     startedAt := startedAt s; runningUntil := runningUntil s;
     ids := ids s; results := results s; launched := launched s |}.

Definition set_times (started until : Z) (s : service) : service :=
  {| status := status s; params := params s;
     testCtx := Some {| deadline := until |};
     startedAt := started; runningUntil := until;
     ids := ids s; results := results s; launched := launched s |}.

Definition go (g : goroutine) (s : service) : service :=
  {| status := status s; params := params s; testCtx := testCtx s;
     startedAt := startedAt s; runningUntil := runningUntil s;
     ids := ids s; results := results s;
     launched := (launched s ++ [g])%list |}.

(** [s.status.CompareAndSwap(old, new)]. *)
Definition CompareAndSwap (old new : Z) (s : service) : bool * service :=
  if status s =? old then (true, set_status new s) else (false, s).

(** [startSender]: the capacity expression
    [s.params.ParallelTesters*resultsBufferSize] multiplies a [uint8]
    by an untyped constant, so it is computed in [uint8]. *)
Definition results_capacity (p : Params.params) : Z :=
  uint8 (ParallelTesters p * resultsBufferSize).

Definition startSender (s : service) : service :=
  let c := results_capacity (params s) in
  go (Sender c)
     {| status := status s; params := params s; testCtx := testCtx s;
        startedAt := startedAt s; runningUntil := runningUntil s;
        ids := ids s; results := Some c; launched := launched s |}.

Definition startIDGen (s : service) : service :=
  go (IDGen idsBufferSize)
     {| status := status s; params := params s; testCtx := testCtx s;
        startedAt := startedAt s; runningUntil := runningUntil s;
        ids := Some idsBufferSize; results := results s;
        launched := launched s |}.

Definition startTesters (s : service) : service := go Testers s.

(** ** The admission handler *)

(** What reading and decoding the request body gives.  When the
    decoder fails on one of the request templates it has already
    assigned the receiver; [stored] is then the value it left in
    [s.params]. *)
Inductive body : Type :=
| ReadFailed
| Malformed (err : string) (stored : option Params.params)
| Decoded (p : Params.params).

Record Request : Type := { r_Method : string; r_Body : body }.

Definition POST (b : body) : Request := {| r_Method := "POST"; r_Body := b |}.

(** The three defaults applied after validation. *)
Definition with_defaults (p : Params.params) : Params.params :=
  {| Name := Name p; Duration := Duration p; Pace := Pace p;
     ParallelTesters := ParallelTesters p; Timeout := Timeout p;
     Choice := Choice p;
     ReqSchema := if String.eqb (ReqSchema p) EmptyString
                  then "http" else ReqSchema p;
     ReqVersion := match ReqVersion p with
                   | (0, 0) => (1, 1)
                   | v => v
                   end;
     ReqIDHeader := if String.eqb (ReqIDHeader p) EmptyString
                    then "X-Request-ID" else ReqIDHeader p;
     Requests := Requests p |}.

(** [handleTest], with [now] the reading of [time.Now()]. *)
Definition handleTest (now : Z) (r : Request) (s : service)
    (w : Http.ResponseWriter) : service * Http.ResponseWriter :=
  if String.eqb (r_Method r) "POST" then
    match r_Body r with
    | ReadFailed =>
        (s, Http.Error "Failed to read request body" Http.StatusBadRequest w)
    | Malformed e stored =>
        (match stored with Some p => set_params p s | None => s end,
         Http.Error ("Malformed JSON: " ++ e) Http.StatusBadRequest w)
    | Decoded p =>
        let s := set_params p s in
        if Duration (params s) <? 0 then
          (s, Http.Error "Invalid service duration: must be >= 0"
                         Http.StatusBadRequest w)
        else
          let s := set_params (with_defaults (params s)) s in
          let '(swapped, s) := CompareAndSwap statusReady statusTesting s in
          let w :=
            if swapped then w
            else Http.Error
                   "Service is already running. Please try again later."
                   Http.StatusServiceUnavailable w in
          let s := set_times now (now + Duration (params s)) s in
          let s := startSender s in
          let s := startIDGen s in
          let s := startTesters s in
          let s := go Supervisor s in
          (s, Http.WriteHeader Http.StatusOK w)
    end
  else
    (s, Http.Error "Method Not Allowed" Http.StatusMethodNotAllowed
                   (Http.SetHeader "Allow" "POST" w)).

(** ** Spin-up *)

(** [rand.Int64N(n)]: panics unless [n > 0]; otherwise a value in
    [[0, n)], here obtained from the generator's raw output. *)
Definition Int64N (raw n : Z) : result Z :=
  if n <=? 0 then Panic "invalid argument to Int64N" else Ok (raw mod n).

(** The window computed before the workers are started; Go's [/] on
    [int64] truncates and panics on a zero divisor. *)
Definition spinup (p : Params.params) : result Z :=
  let spinup := Z.quot (Duration p) spinupFactor in
  let spinup :=
    if spinup >? spinupMaxDuration then spinupMaxDuration else spinup in
  if ParallelTesters p =? 0
  then Panic "runtime error: integer divide by zero"
  else Ok (Z.quot spinup (ParallelTesters p)).

(** The sleeps of [for i := range int(s.params.ParallelTesters)], one
    per worker, from the raw outputs [raw i] of the generator. *)
Fixpoint spinup_sleeps (window : Z) (raw : nat -> Z) (i workers : nat)
  : result (list Z) :=
  match workers with
  | O => Ok []
  | S workers' =>
      d ← Int64N (raw i) window;
      ds ← spinup_sleeps window raw (S i) workers';
      mret (d :: ds)
  end.

Definition runTesters_spinup (p : Params.params) (raw : nat -> Z)
  : result (list Z) :=
  window ← spinup p;
  spinup_sleeps window raw 0 (Z.to_nat (ParallelTesters p)).

(** ** The worker loop *)

(** How [client.Do] can fail, as far as the loop looks:
    [errors.Is(err, context.DeadlineExceeded)] or not. *)
Inductive do_error : Type := DeadlineExceeded | OtherError.

(** What one turn of the loop receives from outside: the value of the
    shared counter after its increment, the raw output of the worker's
    generator, whether [http.NewRequestWithContext] fails, the
    identifier taken from the [ids] channel (as text), the formatted
    start time, the outcome of [client.Do] (the status code of the
    response if there is one, and the error if there is one), and the
    elapsed time truncated to milliseconds. *)
Record exchange : Type := {
  globalN : Z;
  raw : Z;
  newRequestFails : bool;
  id : string;
  reqTime : string;
  resp : option Z;
  err : option do_error;
  elapsed : Shared.Duration
}.

(** [s[i]] on a slice: panics outside the bounds. *)
Definition index (l : list request) (i : Z) : result request :=
  if i <? 0 then Panic "runtime error: index out of range"
  else match l !! Z.to_nat i with
       | Some x => Ok x
       | None => Panic "runtime error: index out of range"
       end.

(** [randSrc.IntN(n)]. *)
Definition IntN (raw n : Z) : result Z :=
  if n <=? 0 then Panic "invalid argument to IntN" else Ok (raw mod n).

(** The selection at the head of every turn.  [r] is the worker's
    variable [r], declared once before the loop; a turn that matches no
    case leaves it as it is. *)
Definition select_request (p : Params.params) (localN : Z) (r : request)
    (raw : Z) : result request :=
  let n := Z.of_nat (length (Requests p)) in
  if n =? 1 then index (Requests p) 0
  else if String.eqb (Choice p) "roundrobin" then
    if n =? 0 then Panic "runtime error: integer divide by zero"
    else index (Requests p) (Z.rem localN n)
  else if String.eqb (Choice p) "random" then
    i ← IntN raw n; index (Requests p) i
  else Ok r.

(** The record a turn builds once the request has been issued. *)
Definition build_result (p : Params.params) (r : request) (e : exchange)
  : TestResult :=
  let tRes := zeroTestResult in
  let tRes := SetRequestTime (reqTime e) tRes in
  let tRes :=
    match err e with
    | Some DeadlineExceeded => SetTimedOut true tRes
    | Some OtherError => tRes
    | None => SetTimedOut false tRes
    end in
  let tRes := SetTestName (Name p) tRes in
  let tRes := SetRequestID (id e) tRes in
  let tRes := SetRequestNum (globalN e) tRes in
  let tRes := SetRequesMethod (Method r) tRes in
  let tRes := SetRequestPath (Path r) tRes in
  let tRes := SetRoundDuration (elapsed e) tRes in
  match resp e with
  | Some code => SetResponseCode code tRes
  | None => tRes
  end.

(** The state a worker carries from turn to turn. *)
Record worker : Type := { localN : Z; r : request }.

Definition new_worker : worker := {| localN := 0; r := zero_request |}.

(** What a turn does that can be seen from outside: the template the
    request was built from, and the record pushed on the results
    channel, if the turn got as far as issuing the request. *)
Record turn : Type := { used : request; pushed : option TestResult }.

(** One turn of the [default:] branch of the loop. *)
Definition iteration (p : Params.params) (w : worker) (e : exchange)
  : result (worker * turn) :=
  let localN := localN w + 1 in
  r ← select_request p localN (r w) (raw e);
  let w := {| localN := localN; r := r |} in
  if newRequestFails e then mret (w, {| used := r; pushed := None |})
  else mret (w, {| used := r; pushed := Some (build_result p r e) |}).

(** The loop runs one turn per exchange, until the test context is
    done; a panic ends it. *)
Fixpoint worker_loop (p : Params.params) (w : worker) (es : list exchange)
  : result (list turn) :=
  match es with
  | [] => Ok []
  | e :: es' =>
      '(w', t) ← iteration p w e;
      ts ← worker_loop p w' es';
      mret (t :: ts)
  end.

(** The records a run of turns put on the results channel, in order. *)
Definition records (ts : list turn) : list TestResult := omap pushed ts.

End Tester.

Module TesterFacts.
Import Go Shared Params Tester.

(** ** Sample configurations *)

Definition get_x : request :=
  {| Method := "GET"; Path := "/x"; Header := ∅; Body := EmptyString |}.
Definition get_a : request :=
  {| Method := "GET"; Path := "/a"; Header := ∅; Body := EmptyString |}.
Definition get_b : request :=
  {| Method := "GET"; Path := "/b"; Header := ∅; Body := EmptyString |}.

(** The parameters of the smoke scenario, with every field a knob. *)
Definition config (duration timeout testers : Z) (choice : string)
    (requests : list request) : Params.params :=
  {| Name := "t1"; Duration := duration; Pace := 60;
     ParallelTesters := testers; Timeout := timeout; Choice := choice;
     ReqSchema := "http"; ReqVersion := (0, 0);
     ReqIDHeader := "X-Request-ID"; Requests := requests |}.

Definition smoke : Params.params :=
  config (2 * Second) (500 * Millisecond) 1 "roundrobin" [get_x].

(** ** Admission *)

Lemma with_defaults_Duration (p : Params.params) :
  Duration (with_defaults p) = Duration p.
Proof. reflexivity. Qed.

Lemma with_defaults_testers (p : Params.params) :
  ParallelTesters (with_defaults p) = ParallelTesters p.
Proof. reflexivity. Qed.

(** A well-formed configuration posted to a ready service is admitted:
    200, [ready -> testing], the run is dated and its goroutines are
    launched. *)
Lemma handleTest_accepts (now : Z) (p : Params.params) (s : service) :
  status s = statusReady ->
  0 <= Duration p ->
  exists s',
    handleTest now (POST (Decoded p)) s Http.NewRecorder
    = (s', Http.WriteHeader Http.StatusOK Http.NewRecorder)
    /\ status s' = statusTesting
    /\ params s' = with_defaults p
    /\ startedAt s' = now
    /\ runningUntil s' = now + Duration p
    /\ launched s'
       = (launched s ++ [Sender (results_capacity p);
                         IDGen idsBufferSize; Testers; Supervisor])%list.
Proof.
  intros Hready Hdur. unfold handleTest, POST. simpl.
  destruct (Z.ltb_spec (Duration p) 0) as [? | _]; [lia |].
  unfold CompareAndSwap. simpl. rewrite Hready. simpl.
  eexists. split; [reflexivity |]. simpl.
  rewrite <- !app_assoc. repeat split.
Qed.

(** The same request while a test is active: the answer is 503, the
    status word is untouched, and everything after the failed swap is
    executed all the same. *)
Lemma handleTest_busy (now : Z) (p : Params.params) (s : service) :
  status s <> statusReady ->
  0 <= Duration p ->
  exists s' w',
    handleTest now (POST (Decoded p)) s Http.NewRecorder = (s', w')
    /\ Http.wroteHeader w' = Some Http.StatusServiceUnavailable
    /\ status s' = status s
    /\ params s' = with_defaults p
    /\ startedAt s' = now
    /\ runningUntil s' = now + Duration p
    /\ testCtx s' = Some {| deadline := now + Duration p |}
    /\ results s' = Some (results_capacity p)
    /\ launched s'
       = (launched s ++ [Sender (results_capacity p);
                         IDGen idsBufferSize; Testers; Supervisor])%list.
Proof.
  intros Hbusy Hdur. unfold handleTest, POST. simpl.
  destruct (Z.ltb_spec (Duration p) 0) as [? | _]; [lia |].
  unfold CompareAndSwap. simpl.
  destruct (Z.eqb_spec (status s) statusReady) as [? | _]; [contradiction |].
  do 2 eexists. split; [reflexivity |]. simpl.
  rewrite <- !app_assoc. repeat split.
Qed.

(** C1 (the code at the failing input). Two well-formed posts, the
    second arriving while the first run is active: the first is
    answered 200 and the second 503, yet the second one also rewrites
    [startedAt], [runningUntil] and [testCtx], replaces the results
    channel and launches a second sender, id generator, worker pool and
    supervisor. *)
Theorem handleTest_rejected_post_starts_a_run :
  let first := handleTest 1000 (POST (Decoded smoke)) NewService
                          Http.NewRecorder in
  let second := handleTest 5000 (POST (Decoded smoke)) (fst first)
                           Http.NewRecorder in
  Http.wroteHeader (snd first) = Some 200
  /\ status (fst first) = statusTesting
  /\ Http.wroteHeader (snd second) = Some 503
  /\ status (fst second) = statusTesting
  /\ startedAt (fst first) = 1000 /\ startedAt (fst second) = 5000
  /\ runningUntil (fst first) = 2000001000
  /\ runningUntil (fst second) = 2000005000
  /\ testCtx (fst first) = Some {| deadline := 2000001000 |}
  /\ testCtx (fst second) = Some {| deadline := 2000005000 |}
  /\ launched (fst first) = [Sender 20; IDGen 100; Testers; Supervisor]
  /\ launched (fst second)
     = [Sender 20; IDGen 100; Testers; Supervisor;
        Sender 20; IDGen 100; Testers; Supervisor].
Proof. vm_compute. repeat split. Qed.

(** ** Capacity of the results channel *)

Lemma results_capacity_small (p : Params.params) :
  0 <= ParallelTesters p <= 12 ->
  results_capacity p = ParallelTesters p * 20.
Proof.
  intros H. unfold results_capacity, uint8, resultsBufferSize.
  apply Z.mod_small. lia.
Qed.

Lemma results_capacity_large (p : Params.params) :
  13 <= ParallelTesters p <= 255 ->
  results_capacity p < ParallelTesters p * 20
  /\ results_capacity p <= 255.
Proof.
  intros H. unfold results_capacity, uint8, resultsBufferSize.
  pose proof (Z.mod_pos_bound (ParallelTesters p * 20) (2 ^ 8) ltac:(lia)).
  lia.
Qed.

(** C2 (the code at the failing input). With thirteen parallel testers
    the results channel is created with capacity 4, not 260; with 128
    it is created with capacity 0.  The same holds when the sender is
    started by the admission handler. *)
Theorem startSender_capacity_wraps :
  let thirteen := config (2 * Second) (500 * Millisecond) 13
                         "roundrobin" [get_x] in
  let many := config (2 * Second) (500 * Millisecond) 128
                     "roundrobin" [get_x] in
  results (startSender (set_params thirteen NewService)) = Some 4
  /\ results (startSender (set_params many NewService)) = Some 0
  /\ results (fst (handleTest 1000 (POST (Decoded thirteen)) NewService
                              Http.NewRecorder)) = Some 4
  /\ 13 * resultsBufferSize = 260.
Proof. vm_compute. repeat split. Qed.

(** ** Validation of the durations *)

(** C4 (as stated, refuted). A configuration whose [timeout] is minus
    five seconds, which is what the body text ["timeout": "-5s"]
    decodes to, is admitted with 200 and stored with its negative
    timeout. *)
Lemma handleTest_accepts_negative_timeout :
  let p := config (2 * Second) (-5 * Second) 1 "roundrobin" [get_x] in
  let out := handleTest 1000 (POST (Decoded p)) NewService
                        Http.NewRecorder in
  Http.wroteHeader (snd out) = Some Http.StatusOK
  /\ status (fst out) = statusTesting
  /\ Timeout (params (fst out)) = -5000000000
  /\ Timeout (params (fst out)) < 0.
Proof. vm_compute. repeat split. Qed.

(** C4 (amended). Whatever the request and the state of the service:
    if [POST /test] answers 200 then the body decoded to a
    configuration whose [duration] is not negative, and that
    configuration (with its defaults) is the one stored; and a
    configuration whose [duration] is negative is answered 400, the
    status word stays as it was and nothing is launched.  The
    [timeout] field is not examined. *)
Theorem handleTest_validates_duration
    (now : Z) (req : Request) (s s' : service) (w' : Http.ResponseWriter) :
  handleTest now req s Http.NewRecorder = (s', w') ->
  (Http.wroteHeader w' = Some Http.StatusOK ->
     exists p, r_Body req = Decoded p
               /\ 0 <= Duration p
               /\ params s' = with_defaults p
               /\ 0 <= Duration (params s'))
  /\ (forall p, req = POST (Decoded p) -> Duration p < 0 ->
        Http.wroteHeader w' = Some Http.StatusBadRequest
        /\ status s' = status s
        /\ launched s' = launched s).
Proof.
  intros Hrun. split.
  - intros Hok. unfold handleTest in Hrun.
    destruct (String.eqb (r_Method req) "POST");
      [| injection Hrun as <- <-; discriminate].
    destruct (r_Body req) as [| e stored | p];
      try (injection Hrun as <- <-; discriminate).
    simpl in Hrun.
    destruct (Z.ltb_spec (Duration p) 0) as [Hneg | Hpos];
      [injection Hrun as <- <-; discriminate |].
    exists p. split; [reflexivity |]. split; [exact Hpos |].
    unfold CompareAndSwap in Hrun. simpl in Hrun.
    destruct (status s =? statusReady); simpl in Hrun;
      injection Hrun as <- <-; simpl; auto.
  - intros p -> Hneg. unfold handleTest, POST in Hrun. simpl in Hrun.
    destruct (Z.ltb_spec (Duration p) 0) as [_ | Hpos]; [| lia].
    injection Hrun as <- <-. repeat split.
Qed.

Lemma handleTest_validates_duration_witness :
  let out := handleTest 1000 (POST (Decoded smoke)) NewService
                        Http.NewRecorder in
  let bad := config (-1) (500 * Millisecond) 1 "roundrobin" [get_x] in
  let out' := handleTest 1000 (POST (Decoded bad)) NewService
                         Http.NewRecorder in
  Http.wroteHeader (snd out) = Some Http.StatusOK
  /\ 0 <= Duration (params (fst out))
  /\ Duration bad < 0
  /\ Http.wroteHeader (snd out') = Some Http.StatusBadRequest
  /\ launched (fst out') = [].
Proof.
  intros out bad out'.
  split; [reflexivity |].
  split.
  - destruct (handleTest_validates_duration
                1000 (POST (Decoded smoke)) NewService (fst out) (snd out)
                eq_refl) as [Hok _].
    destruct (Hok eq_refl) as (p & _ & _ & _ & Hdur). exact Hdur.
  - split; [reflexivity |].
    destruct (handleTest_validates_duration
                1000 (POST (Decoded bad)) NewService (fst out') (snd out')
                eq_refl) as [_ Hbad].
    destruct (Hbad bad eq_refl) as (Hcode & _ & Hl); [reflexivity |].
    split; [exact Hcode | exact Hl].
Defined.

(** ** Spin-up *)

Lemma spinup_sleeps_bounds (window : Z) (raw : nat -> Z) (workers i : nat) :
  0 < window ->
  exists ds,
    spinup_sleeps window raw i workers = Ok ds
    /\ length ds = workers
    /\ Forall (fun d => 0 <= d < window) ds.
Proof.
  intros Hpos. revert i.
  induction workers as [| n IH]; intros i; simpl.
  - exists []. repeat split. constructor.
  - unfold Int64N. destruct (Z.leb_spec window 0) as [? | _]; [lia |].
    destruct (IH (S i)) as (ds & -> & Hlen & Hall). simpl.
    exists (raw i mod window :: ds). split; [reflexivity |].
    split; [simpl; now rewrite Hlen |].
    constructor; [apply Z.mod_pos_bound; lia | exact Hall].
Qed.

(** Where the computation does go through: with at least one worker
    and a duration of at least [4 * N] nanoseconds, every worker
    sleeps less than [min (duration / 4) 10s / N]. *)
Lemma runTesters_spinup_bounds (p : Params.params) (raw : nat -> Z) :
  1 <= ParallelTesters p <= 255 ->
  4 * ParallelTesters p <= Duration p ->
  exists ds,
    runTesters_spinup p raw = Ok ds
    /\ length ds = Z.to_nat (ParallelTesters p)
    /\ Forall (fun d =>
                 0 <= d < Z.min (Duration p / 4) (10 * Second)
                          / ParallelTesters p) ds.
Proof.
  intros HN HD. unfold runTesters_spinup, spinup.
  destruct (Z.eqb_spec (ParallelTesters p) 0) as [? | _]; [lia |].
  simpl.
  set (window := Z.quot _ (ParallelTesters p)).
  assert (Hw : window = Z.min (Duration p / 4) (10 * Second)
                        / ParallelTesters p).
  { unfold window, spinupFactor, spinupMaxDuration.
    rewrite (Z.quot_div_nonneg (Duration p) 4) by lia.
    assert (0 <= Duration p / 4) by (apply Z.div_pos; lia).
    destruct (Z.gtb_spec (Duration p / 4) (10 * Second)) as [Hgt | Hle].
    - rewrite Z.min_r by lia. apply Z.quot_div_nonneg; unfold Second,
        Millisecond; lia.
    - rewrite Z.min_l by lia. apply Z.quot_div_nonneg; lia. }
  assert (Hpos : 0 < window).
  { rewrite Hw. apply Z.div_str_pos. split; [lia |].
    apply Z.min_glb; [| unfold Second, Millisecond; lia].
    apply Z.div_le_lower_bound; lia. }
  rewrite <- Hw. now apply spinup_sleeps_bounds.
Qed.

(** C8 (the code at the failing inputs). Three admitted
    configurations on which the spin-up computation panics: a
    duration of zero with one worker and a duration of three
    nanoseconds with one worker (the window is zero, and the random
    draw refuses a bound that is not positive), and a configuration
    with no worker at all (the window is divided by zero). *)
Theorem runTesters_spinup_panics (raw : nat -> Z) :
  let zero := config 0 (500 * Millisecond) 1 "roundrobin" [get_x] in
  let tiny := config 3 (500 * Millisecond) 1 "roundrobin" [get_x] in
  let nobody := config (2 * Second) (500 * Millisecond) 0
                       "roundrobin" [get_x] in
  runTesters_spinup zero raw = Panic "invalid argument to Int64N"
  /\ runTesters_spinup tiny raw = Panic "invalid argument to Int64N"
  /\ runTesters_spinup nobody raw
     = Panic "runtime error: integer divide by zero"
  /\ Forall (fun p =>
               Http.wroteHeader
                 (snd (handleTest 1000 (POST (Decoded p)) NewService
                                  Http.NewRecorder))
               = Some Http.StatusOK) [zero; tiny; nobody].
Proof.
  repeat split. repeat constructor.
Qed.

(** ** The columns of an emitted record *)

Lemma build_result_length (p : Params.params) (r : request) (e : exchange) :
  length (build_result p r e) = 9%nat.
Proof.
  unfold build_result. destruct (err e) as [[|] |], (resp e); reflexivity.
Qed.

Lemma build_result_columns (p : Params.params) (r : request) (e : exchange) :
  col trRequestTime (build_result p r e) = reqTime e
  /\ col trTestName (build_result p r e) = Name p
  /\ col trRequestID (build_result p r e) = id e
  /\ col trRequestNum (build_result p r e) = Itoa (globalN e)
  /\ col trRequestMethod (build_result p r e) = Method r
  /\ col trRequestPath (build_result p r e) = Path r
  /\ col trRoundDuration (build_result p r e) = Duration_String (elapsed e).
Proof.
  unfold build_result.
  destruct (err e) as [[|] |], (resp e); repeat split.
Qed.

(** A deadline that expired is reported as ["true"]. *)
Lemma build_result_deadline (p : Params.params) (r : request) (e : exchange) :
  err e = Some DeadlineExceeded ->
  col trTimedOut (build_result p r e) = "true".
Proof. intros H. unfold build_result. rewrite H. now destruct (resp e). Qed.

(** A response without error is reported as ["false"] with the status
    code in decimal. *)
Lemma build_result_response (p : Params.params) (r : request) (e : exchange)
    (code : Z) :
  err e = None -> resp e = Some code ->
  col trTimedOut (build_result p r e) = "false"
  /\ col trResponseCode (build_result p r e) = Itoa code.
Proof. intros He Hr. unfold build_result. rewrite He, Hr. now split. Qed.

(** Any other failure leaves both columns as the zero value of the
    array has them: empty. *)
Lemma build_result_other_error (p : Params.params) (r : request)
    (e : exchange) :
  err e = Some OtherError -> resp e = None ->
  col trTimedOut (build_result p r e) = EmptyString
  /\ col trResponseCode (build_result p r e) = EmptyString.
Proof. intros He Hr. unfold build_result. rewrite He, Hr. now split. Qed.

(** An exchange that ends with a refused connection. *)
Definition refused : exchange :=
  {| globalN := 1; raw := 0; newRequestFails := false;
     id := "6f1c2a0e-0000-4000-8000-000000000001";
     reqTime := "2025-03-01 10:00:00"; resp := None;
     err := Some OtherError; elapsed := 3 * Millisecond |}.

(** C3 (the code at the failing input). When the request fails with an
    error that is not a deadline, the record the worker pushes has an
    empty [TimedOut] column, not ["false"]; its [RespCode] is empty. *)
Theorem iteration_transport_error_record :
  exists w' rec,
    iteration smoke new_worker refused
    = Ok (w', {| used := get_x; pushed := Some rec |})
    /\ rec = [ "2025-03-01 10:00:00"; "t1";
               "6f1c2a0e-0000-4000-8000-000000000001"; "1"; "GET"; "/x";
               EmptyString; "3ms"; EmptyString ]
    /\ col trTimedOut rec = EmptyString
    /\ col trTimedOut rec <> "false"
    /\ col trTimedOut rec <> "true"
    /\ col trResponseCode rec = EmptyString.
Proof.
  do 2 eexists. split; [reflexivity |].
  split; [reflexivity |]. repeat split; discriminate.
Qed.

(** ** Which template a turn uses *)

(** What a turn shows when it builds its request from [r]. *)
Definition turn_of (p : Params.params) (r : request) (e : exchange) : turn :=
  {| used := r;
     pushed := if newRequestFails e then None
               else Some (build_result p r e) |}.

(** The template at a position of the configured list. *)
Definition template (p : Params.params) (i : Z) : request :=
  default zero_request (Requests p !! Z.to_nat i).

Lemma index_in_range (p : Params.params) (i : Z) :
  0 <= i < Z.of_nat (length (Requests p)) ->
  index (Requests p) i = Ok (template p i).
Proof.
  intros Hi. unfold index, template.
  destruct (Z.ltb_spec i 0) as [? | _]; [lia |].
  destruct (Requests p !! Z.to_nat i) as [x |] eqn:Hx; [reflexivity |].
  apply lookup_ge_None in Hx. lia.
Qed.

Lemma iteration_turn (p : Params.params) (w : worker) (e : exchange)
    (r' : request) :
  select_request p (localN w + 1) (r w) (raw e) = Ok r' ->
  iteration p w e = Ok ({| localN := localN w + 1; r := r' |},
                        turn_of p r' e).
Proof.
  intros H. unfold iteration, turn_of. rewrite H. simpl.
  now destruct (newRequestFails e).
Qed.

(** One template: every turn uses it. *)
Lemma worker_loop_single (p : Params.params) (r0 : request) (es : list exchange)
    (w : worker) :
  Requests p = [r0] ->
  worker_loop p w es = Ok (map (turn_of p r0) es).
Proof.
  intros Hone. revert w. induction es as [| e es IH]; intros w;
    [reflexivity |].
  simpl. rewrite (iteration_turn p w e r0).
  - simpl. rewrite IH. reflexivity.
  - unfold select_request. rewrite Hone. reflexivity.
Qed.

(** Round robin over two or more templates: the turn that raises the
    worker's counter to [n] uses the template at [n mod len]. *)
Lemma worker_loop_roundrobin (p : Params.params) (es : list exchange)
    (w : worker) :
  Choice p = "roundrobin" ->
  (2 <= length (Requests p))%nat ->
  0 <= localN w ->
  worker_loop p w es
  = Ok (imap (fun k e =>
                turn_of p
                  (template p ((localN w + 1 + Z.of_nat k)
                               mod Z.of_nat (length (Requests p)))) e)
             es).
Proof.
  intros Hrr Hlen. revert w. induction es as [| e es IH]; intros w Hw;
    [reflexivity |].
  set (n := Z.of_nat (length (Requests p))) in *.
  assert (Hn : 2 <= n) by (unfold n; lia).
  simpl.
  rewrite (iteration_turn p w e (template p ((localN w + 1) mod n))).
  - simpl. rewrite IH by (simpl; lia). simpl.
    rewrite Z.add_0_r. do 2 f_equal.
    apply imap_ext. intros k e' _. simpl. do 3 f_equal. lia.
  - unfold select_request. fold n. rewrite Hrr.
    destruct (Z.eqb_spec n 1) as [? | _]; [lia |]. simpl.
    destruct (Z.eqb_spec n 0) as [? | _]; [lia |].
    rewrite Z.rem_mod_nonneg by lia.
    apply index_in_range. fold n. apply Z.mod_pos_bound. lia.
Qed.

(** Neither [roundrobin] nor [random], and not exactly one template:
    no turn assigns the worker's variable, so every turn uses the
    value the worker started with. *)
Lemma worker_loop_no_case (p : Params.params) (es : list exchange)
    (w : worker) :
  Choice p <> "roundrobin" -> Choice p <> "random" ->
  length (Requests p) <> 1%nat ->
  worker_loop p w es = Ok (map (turn_of p (r w)) es).
Proof.
  intros Hrr Hrnd Hlen. revert w. induction es as [| e es IH]; intros w;
    [reflexivity |].
  simpl. rewrite (iteration_turn p w e (r w)).
  - simpl. rewrite IH. reflexivity.
  - unfold select_request.
    destruct (Z.eqb_spec (Z.of_nat (length (Requests p))) 1) as [? | _];
      [lia |].
    destruct (String.eqb_spec (Choice p) "roundrobin") as [? | _];
      [contradiction |].
    destruct (String.eqb_spec (Choice p) "random") as [? | _];
      [contradiction |].
    reflexivity.
Qed.

(** With no template at all, the index expression of the round-robin
    case divides by zero on the first turn. *)
Lemma worker_loop_roundrobin_empty (p : Params.params) (e : exchange)
    (es : list exchange) (w : worker) :
  Choice p = "roundrobin" ->
  Requests p = [] ->
  worker_loop p w (e :: es) = Panic "runtime error: integer divide by zero".
Proof.
  intros Hrr Hnone. simpl. unfold iteration, select_request.
  rewrite Hrr, Hnone. reflexivity.
Qed.

Lemma records_all_issued (p : Params.params) (g : nat -> request)
    (es : list exchange) :
  Forall (fun e => newRequestFails e = false) es ->
  records (imap (fun k e => turn_of p (g k) e) es)
  = imap (fun k e => build_result p (g k) e) es.
Proof.
  intros Hall. revert g. induction Hall as [| e es He _ IH]; intros g;
    [reflexivity |].
  rewrite !imap_cons. unfold records in *. simpl. rewrite He.
  f_equal. apply (IH (g ∘ S)).
Qed.

Lemma succ_mod_2 (i : nat) :
  (Z.of_nat i + 1) mod 2 = if Nat.even i then 1 else 0.
Proof.
  destruct (Nat.even i) eqn:Hev.
  - apply Nat.even_spec in Hev as [k ->].
    replace (Z.of_nat (2 * k) + 1) with (1 + Z.of_nat k * 2) by lia.
    now rewrite Z_mod_plus_full.
  - assert (Hodd : Nat.odd i = true)
      by (unfold Nat.odd; now rewrite Hev).
    apply Nat.odd_spec in Hodd as [k ->].
    replace (Z.of_nat (2 * k + 1) + 1) with (0 + (Z.of_nat k + 1) * 2)
      by lia.
    now rewrite Z_mod_plus_full.
Qed.

Definition served (code : Z) (n : Z) : exchange :=
  {| globalN := n; raw := 0; newRequestFails := false;
     id := "6f1c2a0e-0000-4000-8000-000000000001";
     reqTime := "2025-03-01 10:00:00"; resp := Some code;
     err := None; elapsed := 3 * Millisecond |}.

Definition six_exchanges : list exchange :=
  map (served 200) [1; 2; 3; 4; 5; 6].

Definition two_paths (choice : string) : Params.params :=
  config (10 * Second) (500 * Millisecond) 1 choice [get_a; get_b].

(** The third end-to-end scenario, run: six records, the first for
    [/b]. *)
Example roundrobin_paths :
  (fun ts => map (col trRequestPath) (records ts))
    <$> match worker_loop (two_paths "roundrobin") new_worker
                          six_exchanges with
        | Ok ts => Some ts
        | _ => None
        end
  = Some ["/b"; "/a"; "/b"; "/a"; "/b"; "/a"].
Proof. reflexivity. Qed.

(** C7. Selection of the template by a worker that starts from
    [new_worker]. (1) With exactly one configured template, the loop
    does not fail and every turn uses that template. (2) With
    [choice = roundrobin] and two or more templates, the loop does not
    fail and its [k]-th turn (counting from zero) uses the template at
    index [(k + 1) mod len], [k + 1] being the value of the worker's
    counter in that turn. (3) Hence with the two templates [/a], [/b]
    and every request issued, the records come one per turn, record
    [i] carries [/b] when [i] is even and [/a] when it is odd; so two
    consecutive records always differ and, from the second record on,
    the paths read [/a], [/b], [/a], [/b], ... *)
Theorem worker_selection (p : Params.params) (es : list exchange) :
  (forall r0, Requests p = [r0] ->
     exists ts, worker_loop p new_worker es = Ok ts
                /\ length ts = length es
                /\ forall t, t ∈ ts -> used t = r0)
  /\ (Choice p = "roundrobin" -> (2 <= length (Requests p))%nat ->
      exists ts, worker_loop p new_worker es = Ok ts
                 /\ length ts = length es
                 /\ forall (k : nat) t, ts !! k = Some t ->
                      Requests p
                        !! Z.to_nat ((Z.of_nat k + 1)
                                     mod Z.of_nat (length (Requests p)))
                      = Some (used t))
  /\ (forall ra rb,
        Choice p = "roundrobin" -> Requests p = [ra; rb] ->
        Path ra = "/a" -> Path rb = "/b" ->
        Forall (fun e => newRequestFails e = false) es ->
        exists ts, worker_loop p new_worker es = Ok ts
                   /\ length (records ts) = length es
                   /\ (forall (i : nat) rec, records ts !! i = Some rec ->
                         col trRequestPath rec
                         = if Nat.even i then "/b" else "/a")
                   /\ (forall (j : nat) rec,
                         drop 1 (records ts) !! j = Some rec ->
                         col trRequestPath rec
                         = if Nat.even j then "/a" else "/b")).
Proof.
  split; [| split].
  - intros r0 Hone. exists (map (turn_of p r0) es).
    split; [now apply worker_loop_single |].
    split; [apply length_map |].
    intros t Ht. apply list_elem_of_fmap in Ht as (e & -> & _). reflexivity.
  - intros Hrr Hlen. eexists.
    split; [apply worker_loop_roundrobin; simpl; [assumption .. | lia]|].
    split; [apply length_imap |].
    intros k t Hk. rewrite list_lookup_imap in Hk.
    destruct (es !! k) as [e |]; [| discriminate].
    injection Hk as <-. simpl. unfold template.
    set (n := Z.of_nat (length (Requests p))).
    assert (Hn : 0 < n) by (unfold n; lia).
    pose proof (Z.mod_pos_bound (Z.of_nat k + 1) n Hn) as Hb.
    replace (0 + 1 + Z.of_nat k) with (Z.of_nat k + 1) by lia.
    destruct (Requests p !! Z.to_nat ((Z.of_nat k + 1) mod n)) as [x |] eqn:Hx;
      [reflexivity |].
    apply lookup_ge_None in Hx. unfold n in *. lia.
  - intros ra rb Hrr Htwo Ha Hb Hall.
    assert (Hpath : forall (i : nat) rec,
               imap (fun k e =>
                       build_result p
                         (template p ((0 + 1 + Z.of_nat k) mod 2)) e) es
                 !! i = Some rec ->
               col trRequestPath rec = if Nat.even i then "/b" else "/a").
    { intros i rec Hi. rewrite list_lookup_imap in Hi.
      destruct (es !! i) as [e |]; [| discriminate].
      injection Hi as <-.
      destruct (build_result_columns
                  p (template p ((0 + 1 + Z.of_nat i) mod 2)) e)
        as (_ & _ & _ & _ & _ & -> & _).
      replace (0 + 1 + Z.of_nat i) with (Z.of_nat i + 1) by lia.
      rewrite succ_mod_2. unfold template. rewrite Htwo.
      destruct (Nat.even i); simpl; assumption. }
    exists (imap (fun k e =>
                    turn_of p (template p ((0 + 1 + Z.of_nat k) mod 2)) e)
                 es).
    split.
    { rewrite worker_loop_roundrobin;
        [| assumption | rewrite Htwo; simpl; lia | simpl; lia].
      rewrite Htwo. reflexivity. }
    rewrite (records_all_issued p _ es Hall).
    split; [apply length_imap |].
    split; [exact Hpath |].
    intros j rec Hj. rewrite lookup_drop in Hj.
    rewrite (Hpath _ _ Hj). simpl Nat.add.
    rewrite Nat.even_succ. unfold Nat.odd. now destruct (Nat.even j).
Qed.

Lemma worker_selection_witness :
  exists ts,
    worker_loop (two_paths "roundrobin") new_worker six_exchanges = Ok ts
    /\ length (records ts) = 6%nat
    /\ (forall (i : nat) rec, records ts !! i = Some rec ->
          col trRequestPath rec = if Nat.even i then "/b" else "/a").
Proof.
  destruct (worker_selection (two_paths "roundrobin") six_exchanges)
    as (_ & _ & Htwo).
  destruct (Htwo get_a get_b eq_refl eq_refl eq_refl eq_refl)
    as (ts & Hrun & Hlen & Hpaths & _).
  - repeat constructor.
  - exists ts. split; [exact Hrun |]. split; [exact Hlen | exact Hpaths].
Defined.

(** ** A configuration without [choice] *)

(** The decoder of [choice] refuses the empty string and [null]; the
    field is empty only when the key is left out, in which case the
    decoder is not called. *)
Example choice_empty_refused :
  is_ok (choice_UnmarshalJSON (Json.Str EmptyString)) = false
  /\ is_ok (choice_UnmarshalJSON Json.Null) = false
  /\ choice_UnmarshalJSON (Json.Str "roundrobin") = Ok "roundrobin"
  /\ choice_UnmarshalJSON (Json.Str "random") = Ok "random".
Proof. repeat split. Qed.

(** C10. With an empty [choice] and two or more configured templates,
    a worker's loop does not fail and makes one turn per exchange; every
    turn builds its request from the zero-valued template (empty method,
    empty path, no header, empty body), and whenever that request can be
    built the turn issues it and pushes its record, which is the record
    of the zero-valued template for that exchange (empty method, empty
    path); only a turn whose request cannot be built pushes nothing.
    Hence, when every request can be built, the records are those of
    the zero-valued template, one per exchange, for the whole run. *)
Theorem worker_without_choice (p : Params.params) (es : list exchange) :
  Choice p = EmptyString ->
  (2 <= length (Requests p))%nat ->
  exists ts,
    worker_loop p new_worker es = Ok ts
    /\ length ts = length es
    /\ (forall t, t ∈ ts ->
          used t = zero_request
          /\ Method (used t) = EmptyString
          /\ Path (used t) = EmptyString
          /\ Header (used t) = ∅
          /\ Body (used t) = EmptyString
          /\ forall rec, pushed t = Some rec ->
               col trRequestMethod rec = EmptyString
               /\ col trRequestPath rec = EmptyString)
    /\ (forall (k : nat) e, es !! k = Some e ->
          exists t,
            ts !! k = Some t
            /\ used t = zero_request
            /\ (newRequestFails e = false ->
                pushed t = Some (build_result p zero_request e)
                /\ col trRequestMethod (build_result p zero_request e)
                   = EmptyString
                /\ col trRequestPath (build_result p zero_request e)
                   = EmptyString)
            /\ (newRequestFails e = true -> pushed t = None))
    /\ (Forall (fun e => newRequestFails e = false) es ->
        records ts = map (build_result p zero_request) es).
Proof.
  intros Hchoice Hlen. exists (map (turn_of p zero_request) es).
  split.
  { apply (worker_loop_no_case p es new_worker).
    - rewrite Hchoice. discriminate.
    - rewrite Hchoice. discriminate.
    - lia. }
  split; [apply length_map |].
  split; [| split].
  - intros t Ht. apply list_elem_of_fmap in Ht as (e & -> & _).
    do 5 (split; [reflexivity |]).
    intros rec Hrec. unfold turn_of in Hrec. simpl in Hrec.
    destruct (newRequestFails e); [discriminate |].
    injection Hrec as <-.
    destruct (build_result_columns p zero_request e)
      as (_ & _ & _ & _ & -> & -> & _).
    now split.
  - intros k e Hk. exists (turn_of p zero_request e).
    split; [now rewrite list_lookup_fmap, Hk |].
    split; [reflexivity |].
    unfold turn_of. simpl. split; intros ->; [| reflexivity].
    split; [reflexivity |].
    destruct (build_result_columns p zero_request e)
      as (_ & _ & _ & _ & -> & -> & _).
    now split.
  - intros Hall. unfold records.
    induction Hall as [| e es' He _ IH]; [reflexivity |].
    simpl. rewrite He. simpl. f_equal. exact IH.
Qed.

Lemma worker_without_choice_witness :
  Choice (two_paths EmptyString) = EmptyString
  /\ (2 <= length (Requests (two_paths EmptyString)))%nat
  /\ exists ts,
       worker_loop (two_paths EmptyString) new_worker six_exchanges = Ok ts
       /\ length ts = 6%nat
       /\ (forall t, t ∈ ts -> used t = zero_request)
       /\ records ts
          = map (build_result (two_paths EmptyString) zero_request)
                six_exchanges
       /\ length (records ts) = 6%nat.
Proof.
  split; [reflexivity |]. split; [simpl; lia |].
  destruct (worker_without_choice (two_paths EmptyString) six_exchanges)
    as (ts & Hrun & Hlen & Hall & _ & Hrecs); [reflexivity | simpl; lia |].
  exists ts. split; [exact Hrun |]. split; [exact Hlen |].
  split; [intros t Ht; now destruct (Hall t Ht) |].
  assert (Hissued : Forall (fun e => newRequestFails e = false)
                           six_exchanges) by (repeat constructor).
  split; [exact (Hrecs Hissued) |].
  rewrite (Hrecs Hissued). reflexivity.
Defined.

End TesterFacts.


(* ===================================================================== *)
(** * Package shared, continued: JSON text of a Duration, rows *)
(* ===================================================================== *)

Module SharedText.
Import Go Shared.

(** [Duration.MarshalJSON]: zero is the literal [null]; any other value
    is its millisecond text as a JSON string (the text holds digits, a
    sign and the unit only, so quoting it adds the two quotes and
    nothing else). *)
Definition Duration_MarshalJSON (d : Duration) : string :=
  if d =? 0 then "null"
  else dquote ++ (Itoa (Milliseconds d) ++ "ms") ++ dquote.

(** [TestResult.Slice]: the nine columns as a slice. *)
Definition Slice (r : TestResult) : list string := r.

End SharedText.

Module SharedTextFacts.
Import Go Shared SharedText SharedFacts.

(** ** From a record to a form and back *)

(** X1. Decoding the form built from a record gives the record back:
    for every nine-column record [r],
    [NewTestResult (URLValues r) = r]. *)
Theorem NewTestResult_URLValues (r : TestResult) :
  length r = 9%nat -> NewTestResult (URLValues r) = r.
Proof.
  intros Hlen.
  do 9 (destruct r as [| ? r]; [discriminate |]).
  destruct r; [| discriminate].
  reflexivity.
Qed.

Lemma NewTestResult_URLValues_witness :
  length (SetTimedOut true zeroTestResult) = 9%nat
  /\ NewTestResult (URLValues (SetTimedOut true zeroTestResult))
     = SetTimedOut true zeroTestResult.
Proof.
  split; [reflexivity |].
  apply NewTestResult_URLValues. reflexivity.
Defined.

(** X2. Whatever the record, the form built from it binds exactly the
    nine attribute names, each to exactly one value: the column of that
    name. *)
Theorem URLValues_keys (r : TestResult) (k : string) :
  (is_Some (URLValues r !! k) <-> k ∈ attrNames)
  /\ (forall (i : nat), attrNames !! i = Some k ->
        URLValues r !! k = Some [col i r]).
Proof.
  split.
  - unfold URLValues, attrNames, Values_Set. simpl.
    repeat match goal with
    | |- context [ <[?n := _]> _ !! k ] =>
        destruct (decide (n = k)) as [<- | ?];
        [ rewrite lookup_insert_eq; split;
          [ intros _; in_literal_list | intros _; eexists; reflexivity ]
        | rewrite lookup_insert_ne by assumption ]
    end.
    rewrite lookup_empty. split.
    + intros [x Hx]. discriminate.
    + intros Hin. walk_elem Hin.
  - intros i Hi. unfold attrNames in Hi.
    do 9 (destruct i as [| i]; [injection Hi as <-; reflexivity |]).
    discriminate.
Qed.

(** X3. Keys outside the schema and values after the first do not
    reach the record: a form and its restriction to the first value of
    each of the nine keys decode to the same record, and a key that is
    missing or bound to no value gives an empty column. *)
Theorem NewTestResult_reads_first_values (vs : Values) :
  NewTestResult vs
  = NewTestResult
      (omap (fun l => match l with [] => None | v :: _ => Some [v] end)
            (filter (fun kv => kv.1 ∈ attrNames) vs))
  /\ (forall (i : nat) k, attrNames !! i = Some k ->
        vs !! k = None \/ vs !! k = Some [] ->
        col i (NewTestResult vs) = EmptyString).
Proof.
  split.
  - unfold NewTestResult. apply map_ext_in. intros k Hk.
    apply list_elem_of_In in Hk.
    unfold Values_Get. rewrite lookup_omap.
    destruct (vs !! k) as [l |] eqn:Hl.
    + rewrite (proj2 (map_lookup_filter_Some _ vs k l) (conj Hl Hk)).
      simpl. now destruct l.
    + rewrite (proj2 (map_lookup_filter_None _ vs k) (or_introl Hl)).
      reflexivity.
  - intros i k Hi Hk. unfold attrNames in Hi.
    unfold NewTestResult, col, Values_Get, attrNames.
    do 9 (destruct i as [| i];
          [injection Hi as <-; simpl; now destruct Hk as [-> | ->] |]).
    discriminate.
Qed.

(** ** The text of a duration *)

Lemma Itoa_ms_unit (x : Z) :
  existsb (HasSuffix (Itoa x ++ "ms")) duration_units = true.
Proof.
  unfold duration_units. simpl.
  now rewrite ParamsFacts.HasSuffix_append.
Qed.

(** X4. [Duration.MarshalJSON] writes [null] exactly for the zero
    duration; every other duration is written as the quoted text of
    [Duration.String], and that text ends in a unit that
    [Duration.UnmarshalJSON] lets through, so reading it back hands the
    text to [time.ParseDuration]. *)
Theorem Duration_MarshalJSON_text (ParseDuration : string -> option Z)
    (d : Duration) :
  (Duration_MarshalJSON d = "null" <-> d = 0)
  /\ (d <> 0 ->
      Duration_MarshalJSON d = dquote ++ Duration_String d ++ dquote)
  /\ Duration_UnmarshalJSON ParseDuration (Json.Str (Duration_String d))
     = match ParseDuration (Duration_String d) with
       | Some value => Ok value
       | None => Err "invalid duration value"
       end.
Proof.
  unfold Duration_MarshalJSON, Duration_String. split; [| split].
  - destruct (Z.eqb_spec d 0) as [-> | Hd]; [tauto |].
    split; [discriminate | contradiction].
  - intros Hd. destruct (Z.eqb_spec d 0); [contradiction | reflexivity].
  - unfold Duration_UnmarshalJSON, Json.Unmarshal_string.
    now rewrite Itoa_ms_unit.
Qed.

(** X5. The text keeps whole milliseconds only: every duration strictly
    between minus one and plus one millisecond is written ["0ms"], and
    two durations with the same number of whole milliseconds have the
    same text. *)
Theorem Duration_String_truncates (d d' : Duration) :
  (- Millisecond < d < Millisecond -> Duration_String d = "0ms")
  /\ (Z.quot d Millisecond = Z.quot d' Millisecond ->
      Duration_String d = Duration_String d').
Proof.
  unfold Duration_String, Milliseconds. split.
  - intros Hd.
    assert (H0 : Z.quot d Millisecond = 0)
      by (apply Z.quot_small_iff; unfold Millisecond in *; lia).
    now rewrite H0.
  - intros ->. reflexivity.
Qed.

Lemma Duration_String_truncates_witness :
  - Millisecond < 999999 < Millisecond
  /\ Duration_String 999999 = "0ms"
  /\ Duration_String (-999999) = "0ms"
  /\ Duration_MarshalJSON 999999 = dquote ++ "0ms" ++ dquote.
Proof.
  split; [unfold Millisecond; lia |].
  split.
  - apply (proj1 (Duration_String_truncates 999999 0)).
    unfold Millisecond. lia.
  - split; reflexivity.
Defined.

Lemma URLValues_keys_witness :
  attrNames !! 8%nat = Some "TimedOut"
  /\ URLValues (SetTimedOut true zeroTestResult) !! "TimedOut"
     = Some ["true"]
  /\ URLValues (SetTimedOut true zeroTestResult) !! "Extra" = None.
Proof.
  split; [reflexivity |].
  destruct (URLValues_keys (SetTimedOut true zeroTestResult) "TimedOut")
    as [_ Hcol].
  split; [exact (Hcol 8%nat eq_refl) | reflexivity].
Defined.

Lemma NewTestResult_reads_first_values_witness :
  attrNames !! 6%nat = Some "RespCode"
  /\ (∅ : Values) !! "RespCode" = None
  /\ col 6 (NewTestResult ∅) = EmptyString.
Proof.
  split; [reflexivity |]. split; [reflexivity |].
  destruct (NewTestResult_reads_first_values ∅) as [_ Hempty].
  apply (Hempty 6%nat "RespCode"); [reflexivity | left; reflexivity].
Defined.

Lemma Duration_MarshalJSON_text_witness :
  1500 * Millisecond <> 0
  /\ Duration_MarshalJSON (1500 * Millisecond)
     = dquote ++ "1500ms" ++ dquote
  /\ Duration_MarshalJSON 0 = "null".
Proof.
  destruct (Duration_MarshalJSON_text (fun _ => None) (1500 * Millisecond))
    as (_ & Hquoted & _).
  destruct (Duration_MarshalJSON_text (fun _ => None) 0) as ((_ & Hnull) & _).
  split; [discriminate |].
  split; [apply Hquoted; discriminate | apply Hnull; reflexivity].
Defined.

End SharedTextFacts.

(* ===================================================================== *)
(** * Package tester, continued: the other field decoders *)
(* ===================================================================== *)

Module ParamsText.
Import Go Params.

(** ** schema, choice, method *)

Definition schema_error : string :=
  "invalid choice value: must be 'http' or 'https'".

(** [schema.MarshalJSON]. *)
Definition schema_MarshalJSON (s : string) : result string :=
  if String.eqb s "http" || String.eqb s "https"
  then Ok (dquote ++ s ++ dquote) else Err schema_error.

(** [schema.UnmarshalJSON]. *)
Definition schema_UnmarshalJSON (data : Json.value) : result string :=
  match Json.Unmarshal_string data with
  | Ok v =>
      if String.eqb v "http" || String.eqb v "https" then Ok v
      else Err schema_error
  | Err e => Err ("invalid JSON string: " ++ e)
  | Panic e => Panic e
  end.

(** [choice.MarshalJSON]. *)
Definition choice_MarshalJSON (c : choice) : result string :=
  if String.eqb c "roundrobin" || String.eqb c "random"
  then Ok (dquote ++ c ++ dquote)
  else Err "invalid choice value: must be 'roundrobin' or 'random'".

(** [validMethods]: the keys are the [http.Method...] constants. *)
Definition validMethods : gmap string bool :=
  list_to_map
    [ ("GET", true); ("HEAD", true); ("POST", true); ("PUT", true);
      ("PATCH", true); ("DELETE", true); ("CONNECT", true);
      ("OPTIONS", true); ("TRACE", true) ].

Definition method_error (s : string) : string :=
  "invalid HTTP method: '" ++ s ++ "'".

(** [method.MarshalJSON]: only the presence of the key is looked at. *)
Definition method_MarshalJSON (m : string) : result string :=
  match validMethods !! m with
  | Some _ => Ok (dquote ++ m ++ dquote)
  | None => Err (method_error m)
  end.

(** [method.UnmarshalJSON]. *)
Definition method_UnmarshalJSON (data : Json.value) : result string :=
  match Json.Unmarshal_string data with
  | Ok s =>
      match validMethods !! s with
      | Some _ => Ok s
      | None => Err (method_error s)
      end
  | Err e => Err ("invalid JSON string: " ++ e)
  | Panic e => Panic e
  end.

(** ** version *)

(** [strings.Split(s, sep)] for a separator of one byte: the pieces
    between the separators, in order; a text without separator is its
    own single piece. *)
Fixpoint Split (s : string) (sep : ascii) : list string :=
  match s with
  | EmptyString => [EmptyString]
  | String c s' =>
      if Ascii.eqb c sep then EmptyString :: Split s' sep
      else match Split s' sep with
           | piece :: pieces => String c piece :: pieces
           | [] => [String c EmptyString]
           end
  end.

(** [type version [2]uint8]. *)
Definition version := (Z * Z)%type.

(** [version.MarshalJSON]. *)
Definition version_MarshalJSON (v : version) : string :=
  dquote ++ (Itoa (fst v) ++ "." ++ Itoa (snd v)) ++ dquote.

(** [version.UnmarshalJSON]. *)
Definition version_UnmarshalJSON (data : Json.value) : result version :=
  match Json.Unmarshal_string data with
  | Ok s =>
      match Split s "."%char with
      | [major; minor] =>
          match Strconv.ParseUint major 8 with
          | Some a =>
              match Strconv.ParseUint minor 8 with
              | Some b => Ok (uint8 a, uint8 b)
              | None => Err ("invalid version minor value: '" ++ s ++ "'")
              end
          | None => Err ("invalid version major value: '" ++ s ++ "'")
          end
      | _ => Err ("invalid version format: expected 'major.minor', got '"
                  ++ s ++ "'")
      end
  | Err e => Err ("invalid JSON string: " ++ e)
  | Panic e => Panic e
  end.

(** ** params *)

(** A request template as [json.Unmarshal(data, &aux)] leaves it inside
    [request.UnmarshalJSON]: either that call failed, or [aux] holds the
    plain fields and the raw header entries (in the order the [range]
    visits them). *)
Inductive raw_request : Type :=
| RawBad (err : string)
| RawFields (alias : request) (aux_header : list (string * Json.value)).

Inductive raw_params : Type :=
| RawParamsBad (err : string)
| RawParams (alias : params) (aux_requests : list raw_request).

Section ReceiverState.
Variable CanonicalMIMEHeaderKey : string -> string.

(** The header loop of [request.UnmarshalJSON] with the receiver made
    explicit: the map as the loop leaves it, and the error if it stopped
    on one. *)
Fixpoint add_elements_on (k : string) (items : list Json.value)
    (h : HttpHeader) : HttpHeader * option string :=
  match items with
  | [] => (h, None)
  | Json.Str s :: rest =>
      add_elements_on k rest (Header_Add CanonicalMIMEHeaderKey k s h)
  | _ :: _ => (h, Some ("invalid header " ++ k ++ " value"))
  end.

Definition header_entry_on (k : string) (raw : Json.value) (h : HttpHeader)
  : HttpHeader * option string :=
  match raw with
  | Json.Str v => (Header_Set CanonicalMIMEHeaderKey k v h, None)
  | Json.Array items => add_elements_on k items h
  | _ => (h, None)
  end.

Fixpoint header_entries_on (entries : list (string * Json.value))
    (h : HttpHeader) : HttpHeader * option string :=
  match entries with
  | [] => (h, None)
  | (k, raw) :: rest =>
      match header_entry_on k raw h with
      | (h', None) => header_entries_on rest h'
      | (h', Some e) => (h', Some e)
      end
  end.

(** [request.UnmarshalJSON] on the receiver [r]: the value the receiver
    holds when the method returns, and the error it returns. *)
Definition request_UnmarshalJSON_on (r : request) (raw : raw_request)
  : request * option string :=
  match raw with
  | RawBad e => (r, Some e)
  | RawFields alias entries =>
      let '(h, e) := header_entries_on entries ∅ in
      ({| Method := Method alias; Path := Path alias; Header := h;
          Body := Body alias |}, e)
  end.

(** The loop [for i, raw := range aux.Requests] over the freshly made
    slice: element [i] is decoded in place; the first failure ends the
    loop, leaving the later elements at their zero value. *)
Fixpoint decode_requests (i : nat) (raws : list raw_request)
  : list request * option string :=
  match raws with
  | [] => ([], None)
  | raw :: rest =>
      match request_UnmarshalJSON_on zero_request raw with
      | (r, Some e) =>
          (r :: replicate (length rest) zero_request,
           Some ("invalid request at index " ++ Itoa (Z.of_nat i)
                 ++ ": " ++ e))
      | (r, None) =>
          let '(rs, e) := decode_requests (S i) rest in (r :: rs, e)
      end
  end.

(** [params.UnmarshalJSON] on the receiver [p]. *)
Definition params_UnmarshalJSON (p : params) (raw : raw_params)
  : params * option string :=
  match raw with
  | RawParamsBad e => (p, Some e)
  | RawParams alias raws =>
      let '(rs, e) := decode_requests 0 raws in
      ({| Name := Name alias; Duration := Duration alias;
          Pace := Pace alias; ParallelTesters := ParallelTesters alias;
          Timeout := Timeout alias; Choice := Choice alias;
          ReqSchema := ReqSchema alias; ReqVersion := ReqVersion alias;
          ReqIDHeader := ReqIDHeader alias; Requests := rs |}, e)
  end.

End ReceiverState.

End ParamsText.

Module ParamsTextFacts.
Import Go Params ParamsText ParamsFacts SharedFacts.

(** ** Texts and their pieces *)

Lemma substring_split (s : string) (m : nat) :
  (m <= String.length s)%nat ->
  s = substring 0 m s ++ substring m (String.length s - m) s.
Proof.
  revert m. induction s as [| c s IH]; intros m Hm.
  - destruct m; [reflexivity | simpl in Hm; lia].
  - destruct m as [| m].
    + change (String c s = substring 0 (String.length (String c s))
                                     (String c s)).
      now rewrite substring_all.
    + simpl in Hm.
      change (String c s
              = String c (substring 0 m s
                          ++ substring m (String.length s - m) s)).
      rewrite <- IH by lia. reflexivity.
Qed.

(** A text that has a suffix is the rest followed by that suffix. *)
Lemma HasSuffix_split (s u : string) :
  HasSuffix s u = true ->
  s = substring 0 (String.length s - String.length u) s ++ u
  /\ substring (String.length s - String.length u) (String.length u) s = u.
Proof.
  unfold HasSuffix. intros H.
  apply andb_true_iff in H as [Hlen Heq].
  apply Nat.leb_le in Hlen. apply String.eqb_eq in Heq.
  split; [| exact Heq].
  pose proof (substring_split s (String.length s - String.length u)
                ltac:(lia)) as Hsplit.
  replace (String.length s - (String.length s - String.length u))%nat
    with (String.length u) in Hsplit by lia.
  now rewrite Heq in Hsplit.
Qed.

Lemma uint16_range (z : Z) : 0 <= uint16 z <= 65535.
Proof.
  unfold uint16. pose proof (Z.mod_pos_bound z (2 ^ 16) ltac:(lia)). lia.
Qed.

(** X6. [pace.UnmarshalJSON] succeeds only on a JSON string made of a
    numeric part that [strconv.ParseUint] reads as a 16-bit number [x],
    followed by one of the three units; the value returned is then [x],
    [x / 60] rounded, or the low 16 bits of [x * 60], and in every case
    lies between 0 and 65535.  In particular the value the receiver
    held before is never returned. *)
Theorem pace_UnmarshalJSON_sound (p0 : pace) (data : Json.value) (r : pace) :
  pace_UnmarshalJSON p0 data = Ok r ->
  exists X x u,
    data = Json.Str (X ++ u)
    /\ Strconv.ParseUint X 16 = Some x
    /\ ((u = "rpm" /\ r = x)
        \/ (u = "rph" /\ r = round_div60 x)
        \/ (u = "rps" /\ r = uint16 (x * 60)))
    /\ 0 <= r <= 65535.
Proof.
  unfold pace_UnmarshalJSON.
  destruct data as [| b | t | s | items | fields]; simpl; try discriminate.
  set (v := substring 0 (String.length s - 3) s).
  set (u := substring (String.length s - 3) 3 s).
  destruct (HasSuffix s "rps") eqn:Hrps;
    [| destruct (HasSuffix s "rpm") eqn:Hrpm;
       [| destruct (HasSuffix s "rph") eqn:Hrph; [| discriminate]]];
    simpl;
    match goal with
    | H : HasSuffix s ?unit = true |- _ =>
        destruct (HasSuffix_split s unit H) as [Hs Hu];
        simpl String.length in Hs, Hu; fold v in Hs; fold u in Hu;
        rewrite Hu; simpl String.eqb; cbv iota
    end;
    (destruct (Strconv.ParseUint v 16) as [x |] eqn:Hx; [| discriminate]);
    intros [= <-]; pose proof (ParseUint_range _ _ Hx) as Hr;
    eexists v, x, _; (split; [now rewrite Hs at 1 |]);
    (split; [exact Hx |]).
  - split; [right; right; now split | apply uint16_range].
  - unfold uint16. rewrite Z.mod_small by lia.
    split; [left; now split | lia].
  - split; [right; left; split; [reflexivity |] | apply uint16_range].
    unfold uint16. apply Z.mod_small.
    unfold round_div60. split; [apply Z.div_pos; lia |].
    apply Z.div_lt_upper_bound; lia.
Qed.

Lemma pace_UnmarshalJSON_sound_witness :
  pace_UnmarshalJSON 7 (Json.Str "20rps") = Ok 1200
  /\ exists X x u,
       Json.Str "20rps" = Json.Str (X ++ u)
       /\ Strconv.ParseUint X 16 = Some x
       /\ ((u = "rpm" /\ 1200 = x)
           \/ (u = "rph" /\ 1200 = round_div60 x)
           \/ (u = "rps" /\ 1200 = uint16 (x * 60)))
       /\ 0 <= 1200 <= 65535.
Proof.
  split; [reflexivity |].
  apply (pace_UnmarshalJSON_sound 7 (Json.Str "20rps") 1200). reflexivity.
Defined.

(** ** The enumerated fields *)

Definition schemas : list string := ["http"; "https"].
Definition choices : list string := ["roundrobin"; "random"].
Definition methods : list string :=
  ["GET"; "HEAD"; "POST"; "PUT"; "PATCH"; "DELETE"; "CONNECT"; "OPTIONS";
   "TRACE"].

Lemma validMethods_lookup (s : string) :
  (s ∈ methods -> validMethods !! s = Some true)
  /\ (s ∉ methods -> validMethods !! s = None).
Proof.
  split.
  - intros Hin. unfold methods in Hin.
    repeat (apply elem_of_cons in Hin as [-> | Hin]; [reflexivity |]).
    apply elem_of_nil in Hin. contradiction.
  - intros Hout. unfold validMethods. simpl.
    repeat match goal with
    | |- context [ <[?n := _]> _ !! s ] =>
        destruct (decide (n = s)) as [<- | ?];
        [ exfalso; apply Hout; in_literal_list
        | rewrite lookup_insert_ne by assumption ]
    end.
    apply lookup_empty.
Qed.

Ltac not_in_literal_list :=
  let H := fresh in
  intros H; apply list_elem_of_In in H; simpl in H; intuition discriminate.

Ltac enum_in H :=
  repeat (apply elem_of_cons in H as [-> | H]; [now split |]);
  apply elem_of_nil in H; contradiction.

Ltac enum_out H :=
  repeat match goal with
  | |- context [ String.eqb ?a ?b ] =>
      destruct (String.eqb_spec a b) as [-> | ?];
      [ exfalso; apply H; in_literal_list |]
  end;
  now split.

(** X7. For each of [schema], [choice] and [method], decoding and
    encoding accept the same texts, compared byte for byte: a member of
    the enumeration is decoded to itself and encoded as itself between
    quotes; any other text, the empty one of an omitted field included,
    is refused by both. *)
Theorem enumerations_agree (s : string) :
  (s ∈ schemas ->
     schema_UnmarshalJSON (Json.Str s) = Ok s
     /\ schema_MarshalJSON s = Ok (dquote ++ s ++ dquote))
  /\ (s ∉ schemas ->
        is_ok (schema_UnmarshalJSON (Json.Str s)) = false
        /\ is_ok (schema_MarshalJSON s) = false)
  /\ (s ∈ choices ->
        choice_UnmarshalJSON (Json.Str s) = Ok s
        /\ choice_MarshalJSON s = Ok (dquote ++ s ++ dquote))
  /\ (s ∉ choices ->
        is_ok (choice_UnmarshalJSON (Json.Str s)) = false
        /\ is_ok (choice_MarshalJSON s) = false)
  /\ (s ∈ methods ->
        method_UnmarshalJSON (Json.Str s) = Ok s
        /\ method_MarshalJSON s = Ok (dquote ++ s ++ dquote))
  /\ (s ∉ methods ->
        method_UnmarshalJSON (Json.Str s) = Err (method_error s)
        /\ method_MarshalJSON s = Err (method_error s)).
Proof.
  repeat split.
  - unfold schemas in H. enum_in H.
  - unfold schemas in H. enum_in H.
  - unfold schema_UnmarshalJSON. simpl. enum_out H.
  - unfold schema_MarshalJSON. enum_out H.
  - unfold choices in H. enum_in H.
  - unfold choices in H. enum_in H.
  - unfold choice_UnmarshalJSON. simpl. enum_out H.
  - unfold choice_MarshalJSON. enum_out H.
  - unfold method_UnmarshalJSON. simpl.
    now rewrite (proj1 (validMethods_lookup s) H).
  - unfold method_MarshalJSON.
    now rewrite (proj1 (validMethods_lookup s) H).
  - unfold method_UnmarshalJSON. simpl.
    now rewrite (proj2 (validMethods_lookup s) H).
  - unfold method_MarshalJSON.
    now rewrite (proj2 (validMethods_lookup s) H).
Qed.

Lemma enumerations_agree_witness :
  ("https" ∈ schemas) /\ ("get" ∉ methods) /\ (EmptyString ∉ choices)
  /\ schema_MarshalJSON "https" = Ok (dquote ++ "https" ++ dquote)
  /\ method_UnmarshalJSON (Json.Str "get") = Err (method_error "get")
  /\ is_ok (choice_MarshalJSON EmptyString) = false.
Proof.
  assert (H1 : "https" ∈ schemas) by in_literal_list.
  assert (H2 : "get" ∉ methods) by not_in_literal_list.
  assert (H3 : EmptyString ∉ choices) by not_in_literal_list.
  split; [exact H1 |]. split; [exact H2 |]. split; [exact H3 |].
  destruct (enumerations_agree "https") as (Hs & _).
  destruct (enumerations_agree "get") as (_ & _ & _ & _ & _ & Hm).
  destruct (enumerations_agree EmptyString) as (_ & _ & _ & Hc & _).
  split; [exact (proj2 (Hs H1)) |].
  split; [exact (proj1 (Hm H2)) | exact (proj2 (Hc H3))].
Defined.

(** ** version *)

(** The text holds no byte [c]. *)
Fixpoint no_byte (c : ascii) (s : string) : bool :=
  match s with
  | EmptyString => true
  | String x s' => negb (Ascii.eqb x c) && no_byte c s'
  end.

Lemma Split_no_sep (s : string) (c : ascii) :
  no_byte c s = true -> Split s c = [s].
Proof.
  induction s as [| x s IH]; [reflexivity |]. simpl.
  intros H. apply andb_true_iff in H as [Hx Hs].
  apply negb_true_iff in Hx. rewrite Hx, (IH Hs). reflexivity.
Qed.

Lemma Split_one_sep (a b : string) (c : ascii) :
  no_byte c a = true -> no_byte c b = true ->
  Split (a ++ String c b) c = [a; b].
Proof.
  intros Ha Hb. induction a as [| x a IH].
  - change (Split (String c b) c = [EmptyString; b]). simpl.
    rewrite Ascii.eqb_refl, (Split_no_sep b c Hb). reflexivity.
  - simpl in Ha. apply andb_true_iff in Ha as [Hx Ha].
    apply negb_true_iff in Hx.
    change (Split (String x (a ++ String c b)) c = [String x a; b]).
    simpl. rewrite Hx, (IH Ha). reflexivity.
Qed.

Lemma Split_nonempty (s : string) (c : ascii) : Split s c <> [].
Proof.
  destruct s as [| x s]; simpl; [discriminate |].
  destruct (Ascii.eqb x c); [discriminate |].
  destruct (Split s c); discriminate.
Qed.

Lemma Split_single_inv (s : string) (c : ascii) (a : string) :
  Split s c = [a] -> s = a /\ no_byte c a = true.
Proof.
  revert a. induction s as [| x s IH]; intros a; simpl.
  - intros [= <-]. now split.
  - destruct (Ascii.eqb x c) eqn:Hx.
    + intros [= _ H]. now destruct (Split_nonempty s c).
    + destruct (Split s c) as [| piece pieces] eqn:Hs; [intros [= <-] |].
      * now destruct (Split_nonempty s c).
      * intros [= <- ->]. destruct (IH piece eq_refl) as [-> Hn].
        split; [reflexivity |]. simpl. now rewrite Hx, Hn.
Qed.

Lemma Split_pair_inv (s : string) (c : ascii) (a b : string) :
  Split s c = [a; b] ->
  s = a ++ String c b /\ no_byte c a = true /\ no_byte c b = true.
Proof.
  revert a. induction s as [| x s IH]; intros a; simpl; [discriminate |].
  destruct (Ascii.eqb_spec x c) as [-> | Hx].
  - intros [= <- H]. destruct (Split_single_inv s c b H) as [-> Hn].
    repeat split. exact Hn.
  - destruct (Split s c) as [| piece pieces] eqn:Hs; [discriminate |].
    intros [= <- ->]. destruct (IH piece eq_refl) as (-> & Ha & Hb).
    split; [reflexivity |]. split; [| exact Hb].
    simpl. rewrite Ha. now destruct (Ascii.eqb_spec x c).
Qed.

Lemma string_of_uint_no_dot (d : Decimal.uint) :
  no_byte "."%char (NilEmpty.string_of_uint d) = true.
Proof. induction d; simpl; assumption || reflexivity. Qed.

Lemma Itoa_nonneg (x : Z) :
  0 <= x ->
  exists d, Itoa x = NilEmpty.string_of_uint d
            /\ d <> Decimal.Nil /\ Z.of_uint d = x.
Proof.
  intros Hx. unfold Itoa. destruct x as [| q | q]; simpl; [| | lia].
  - exists (Decimal.D0 Decimal.Nil). repeat split. discriminate.
  - exists (Pos.to_uint q).
    pose proof (DecimalPos.Unsigned.to_uint_nonnil q) as Hnil.
    split; [now destruct (Pos.to_uint q) |].
    split; [exact Hnil |].
    unfold Z.of_uint. now rewrite DecimalPos.Unsigned.of_to.
Qed.

Lemma ParseUint_Itoa_bits (x bits : Z) :
  0 <= x <= 2 ^ bits - 1 -> Strconv.ParseUint (Itoa x) bits = Some x.
Proof.
  intros Hx. destruct (Itoa_nonneg x) as (d & -> & Hnil & Hval); [lia |].
  unfold Strconv.ParseUint.
  destruct (NilEmpty.string_of_uint d) as [| c s] eqn:Hstr.
  - exfalso. now apply (string_of_uint_nonempty d).
  - rewrite <- Hstr, NilEmpty.usu, Hval.
    destruct (Z.leb_spec x (2 ^ bits - 1)); [reflexivity | lia].
Qed.

Lemma ParseUint_range_bits (s : string) (bits x : Z) :
  Strconv.ParseUint s bits = Some x -> 0 <= x <= 2 ^ bits - 1.
Proof.
  unfold Strconv.ParseUint. destruct s as [| c s]; [discriminate |].
  destruct (NilEmpty.uint_of_string (String c s)) as [d |]; [| discriminate].
  simpl. destruct (Z.leb_spec (Z.of_uint d) (2 ^ bits - 1)); [| discriminate].
  intros [= <-]. pose proof (of_uint_nonneg d). lia.
Qed.

(** X8. A version survives being written and read back: for every
    pair of 8-bit numbers, the text [version.MarshalJSON] puts between
    the quotes is decoded by [version.UnmarshalJSON] to the same pair. *)
Theorem version_roundtrip (a b : Z) :
  0 <= a <= 255 -> 0 <= b <= 255 ->
  let text := Itoa a ++ "." ++ Itoa b in
  version_MarshalJSON (a, b) = dquote ++ text ++ dquote
  /\ version_UnmarshalJSON (Json.Str text) = Ok (a, b).
Proof.
  intros Ha Hb text. split; [reflexivity |].
  unfold version_UnmarshalJSON, text. simpl Json.Unmarshal_string.
  cbv beta iota.
  destruct (Itoa_nonneg a) as (da & Hda & _); [lia |].
  destruct (Itoa_nonneg b) as (db & Hdb & _); [lia |].
  change (Itoa a ++ "." ++ Itoa b) with (Itoa a ++ String "."%char (Itoa b)).
  rewrite Split_one_sep
    by (rewrite ?Hda, ?Hdb; apply string_of_uint_no_dot).
  rewrite !ParseUint_Itoa_bits by (simpl; lia).
  unfold uint8. now rewrite !Z.mod_small by lia.
Qed.

Lemma version_roundtrip_witness :
  version_MarshalJSON (2, 10) = dquote ++ "2.10" ++ dquote
  /\ version_UnmarshalJSON (Json.Str "2.10") = Ok (2, 10).
Proof.
  apply (version_roundtrip 2 10); lia.
Defined.

(** X9. [version.UnmarshalJSON] accepts nothing else than two 8-bit
    decimal numbers around a single dot: if it returns a version, the
    input is a JSON string [A.B] in which neither [A] nor [B] holds a
    dot, [strconv.ParseUint] reads [A] as the major and [B] as the
    minor number, and both lie between 0 and 255. *)
Theorem version_UnmarshalJSON_sound (data : Json.value) (v : version) :
  version_UnmarshalJSON data = Ok v ->
  exists A B,
    data = Json.Str (A ++ "." ++ B)
    /\ no_byte "."%char A = true /\ no_byte "."%char B = true
    /\ Strconv.ParseUint A 8 = Some (fst v)
    /\ Strconv.ParseUint B 8 = Some (snd v)
    /\ 0 <= fst v <= 255 /\ 0 <= snd v <= 255.
Proof.
  unfold version_UnmarshalJSON.
  destruct data as [| b | t | s | items | fields]; simpl; try discriminate.
  destruct (Split s ".") as [| A [| B [| C rest]]] eqn:Hsplit;
    try discriminate.
  destruct (Split_pair_inv s _ A B Hsplit) as (-> & HA & HB).
  destruct (Strconv.ParseUint A 8) as [a |] eqn:Ha; [| discriminate].
  destruct (Strconv.ParseUint B 8) as [b |] eqn:Hb; [| discriminate].
  pose proof (ParseUint_range_bits _ _ _ Ha) as Hra.
  pose proof (ParseUint_range_bits _ _ _ Hb) as Hrb.
  simpl in Hra, Hrb.
  intros [= <-]. unfold uint8. rewrite !Z.mod_small by lia. simpl.
  exists A, B. repeat split; (assumption || lia).
Qed.

Lemma version_UnmarshalJSON_sound_witness :
  version_UnmarshalJSON (Json.Str "1.1") = Ok (1, 1)
  /\ is_ok (version_UnmarshalJSON (Json.Str "1")) = false
  /\ is_ok (version_UnmarshalJSON (Json.Str "1.2.3")) = false
  /\ is_ok (version_UnmarshalJSON (Json.Str "256.0")) = false
  /\ exists A B, Json.Str "1.1" = Json.Str (A ++ "." ++ B)
                 /\ Strconv.ParseUint A 8 = Some 1.
Proof.
  split; [reflexivity |]. do 3 (split; [reflexivity |]).
  destruct (version_UnmarshalJSON_sound (Json.Str "1.1") (1, 1) eq_refl)
    as (A & B & Hd & _ & _ & HA & _).
  exists A, B. split; [exact Hd | exact HA].
Defined.

(** ** The list of request templates *)

Section ParamsDecodingFacts.
Variable canon : string -> string.

(** What [request.UnmarshalJSON] returns for a raw template. *)
Definition request_decode (raw : raw_request) : result request :=
  match raw with
  | RawBad e => Err e
  | RawFields alias entries => request_UnmarshalJSON canon alias entries
  end.

Lemma add_elements_on_agree (k : string) (items : list Json.value)
    (h : HttpHeader) :
  add_elements canon k items h
  = match add_elements_on canon k items h with
    | (h', None) => Ok h'
    | (_, Some e) => Err e
    end.
Proof.
  revert h. induction items as [| v items IH]; intros h; [reflexivity |].
  destruct v; simpl; try reflexivity. apply IH.
Qed.

Lemma header_entries_on_agree (entries : list (string * Json.value))
    (h : HttpHeader) :
  header_entries canon entries h
  = match header_entries_on canon entries h with
    | (h', None) => Ok h'
    | (_, Some e) => Err e
    end.
Proof.
  revert h. induction entries as [| [k raw] entries IH]; intros h;
    [reflexivity |].
  simpl.
  assert (Hentry : header_entry canon k raw h
                   = match header_entry_on canon k raw h with
                     | (h', None) => Ok h'
                     | (_, Some e) => Err e
                     end).
  { destruct raw; try reflexivity. apply add_elements_on_agree. }
  rewrite Hentry.
  destruct (header_entry_on canon k raw h) as [h' [e |]]; simpl;
    [reflexivity | apply IH].
Qed.

(** The receiver-passing form and the returned value tell the same
    story. *)
Lemma request_UnmarshalJSON_on_agree (r0 : request) (raw : raw_request) :
  request_decode raw
  = match request_UnmarshalJSON_on canon r0 raw with
    | (r, None) => Ok r
    | (_, Some e) => Err e
    end.
Proof.
  destruct raw as [e | alias entries]; [reflexivity |].
  simpl. unfold request_UnmarshalJSON.
  rewrite header_entries_on_agree.
  destruct (header_entries_on canon entries ∅) as [h [e |]]; reflexivity.
Qed.

Definition index_error (i : nat) (e : string) : string :=
  "invalid request at index " ++ Itoa (Z.of_nat i) ++ ": " ++ e.

Lemma decode_requests_spec (i : nat) (raws : list raw_request)
    (rs : list request) (e : option string) :
  decode_requests canon i raws = (rs, e) ->
  length rs = length raws
  /\ match e with
     | None => Forall2 (fun raw r => request_decode raw = Ok r) raws rs
     | Some msg =>
         exists (k : nat) raw err,
           raws !! k = Some raw
           /\ request_decode raw = Err err
           /\ msg = index_error (i + k) err
           /\ Forall2 (fun raw r => request_decode raw = Ok r)
                      (take k raws) (take k rs)
           /\ drop (S k) rs
              = replicate (length raws - S k) zero_request
     end.
Proof.
  revert i rs e. induction raws as [| raw raws IH]; intros i rs e; simpl.
  - intros [= <- <-]. split; [reflexivity | constructor].
  - pose proof (request_UnmarshalJSON_on_agree zero_request raw) as Hraw.
    destruct (request_UnmarshalJSON_on canon zero_request raw)
      as [r [err |]].
    + intros [= <- <-]. split; [simpl; now rewrite length_replicate |].
      exists 0%nat, raw, err. rewrite Nat.add_0_r, Nat.sub_0_r.
      repeat split; [exact Hraw | constructor].
    + destruct (decode_requests canon (S i) raws) as [rs' e'] eqn:Hrest.
      intros [= <- <-].
      destruct (IH (S i) rs' e' Hrest) as [Hlen Hres].
      split; [simpl; now rewrite Hlen |].
      destruct e' as [msg |].
      * destruct Hres as (k & raw' & err & Hk & Herr & -> & Hpre & Hpost).
        exists (S k), raw', err.
        split; [exact Hk |]. split; [exact Herr |].
        split; [now replace (i + S k)%nat with (S i + k)%nat by lia |].
        split; [simpl; constructor; assumption | exact Hpost].
      * constructor; assumption.
Qed.

(** X10. [params.UnmarshalJSON] returns no error exactly when every
    raw template decodes; the stored list then has one template per raw
    one, in the same order, each the value [request.UnmarshalJSON]
    returns for it, and every one of the nine scalar fields (name,
    duration, timeout, pace, parallelTesters, choice, reqSchema,
    reqVersion, reqIDHeader) is the one decoded with the object. *)
Theorem params_UnmarshalJSON_requests (p alias : params)
    (raws : list raw_request) :
  let out := params_UnmarshalJSON canon p (RawParams alias raws) in
  (snd out = None <->
     Forall (fun raw => is_ok (request_decode raw) = true) raws)
  /\ (snd out = None ->
        Forall2 (fun raw r => request_decode raw = Ok r)
                raws (Requests (fst out))
        /\ Name (fst out) = Name alias
        /\ Duration (fst out) = Duration alias
        /\ Timeout (fst out) = Timeout alias
        /\ Pace (fst out) = Pace alias
        /\ ParallelTesters (fst out) = ParallelTesters alias
        /\ Choice (fst out) = Choice alias
        /\ ReqSchema (fst out) = ReqSchema alias
        /\ ReqVersion (fst out) = ReqVersion alias
        /\ ReqIDHeader (fst out) = ReqIDHeader alias).
Proof.
  simpl. destruct (decode_requests canon 0 raws) as [rs e] eqn:Hrun.
  destruct (decode_requests_spec 0 raws rs e Hrun) as [Hlen Hres].
  simpl. split.
  - split.
    + intros ->. clear Hrun Hlen.
      induction Hres as [| raw r raws rs Hr _ IH]; constructor;
        [now rewrite Hr | exact IH].
    + intros Hall. destruct e as [msg |]; [| reflexivity].
      destruct Hres as (k & raw & err & Hk & Herr & _).
      rewrite Forall_forall in Hall.
      assert (Hin : raw ∈ raws) by (eapply list_elem_of_lookup_2; eauto).
      specialize (Hall raw Hin).
      rewrite Herr in Hall. discriminate.
  - intros ->. repeat split. exact Hres.
Qed.

(** X11. When [params.UnmarshalJSON] fails on the templates, the
    message is ["invalid request at index i: e"] where [i] is the first
    position whose template does not decode and [e] is the error of that
    template; the receiver has been overwritten all the same, with a
    list as long as the raw one whose entries after [i] are zero
    valued. *)
Theorem params_UnmarshalJSON_first_error (p alias : params)
    (raws : list raw_request) (p' : params) (msg : string) :
  params_UnmarshalJSON canon p (RawParams alias raws) = (p', Some msg) ->
  exists (i : nat) raw e,
    raws !! i = Some raw
    /\ request_decode raw = Err e
    /\ msg = "invalid request at index " ++ Itoa (Z.of_nat i) ++ ": " ++ e
    /\ (forall (j : nat) raw', (j < i)%nat -> raws !! j = Some raw' ->
          is_ok (request_decode raw') = true)
    /\ Name p' = Name alias
    /\ length (Requests p') = length raws
    /\ (forall (j : nat), (i < j < length raws)%nat ->
          Requests p' !! j = Some zero_request).
Proof.
  simpl. destruct (decode_requests canon 0 raws) as [rs e] eqn:Hrun.
  intros [= <- ->].
  destruct (decode_requests_spec 0 raws rs _ Hrun)
    as (Hlen & k & raw & err & Hk & Herr & -> & Hpre & Hpost).
  exists k, raw, err. simpl.
  split; [exact Hk |]. split; [exact Herr |]. split; [reflexivity |].
  split.
  { intros j raw' Hj Hraw'.
    assert (Htake : take k raws !! j = Some raw')
      by (rewrite lookup_take_lt by lia; exact Hraw').
    destruct (Forall2_lookup_l _ _ _ _ _ Hpre Htake) as (r & _ & Hr).
    now rewrite Hr. }
  split; [reflexivity |]. split; [exact Hlen |].
  intros j Hj.
  replace j with (S k + (j - S k))%nat by lia.
  rewrite <- lookup_drop, Hpost. apply lookup_replicate_2. lia.
Qed.

End ParamsDecodingFacts.

Definition bad_header_template : raw_request :=
  RawFields status_request
    [("X-Test", Json.Array [Json.Str "a"; Json.Number "5"])].

Definition good_template : raw_request :=
  RawFields status_request [("Connection", Json.Str "keep-alive")].

Lemma params_UnmarshalJSON_requests_witness :
  let out := params_UnmarshalJSON canonical_key zero_params
               (RawParams zero_params [good_template; good_template]) in
  snd out = None
  /\ length (Requests (fst out)) = 2%nat.
Proof.
  intros out.
  destruct (params_UnmarshalJSON_requests canonical_key zero_params
              zero_params [good_template; good_template]) as [_ Hok].
  split; [reflexivity |].
  destruct (Hok eq_refl) as (Hall & _).
  apply Forall2_length in Hall. symmetry. exact Hall.
Defined.

Lemma params_UnmarshalJSON_first_error_witness :
  exists p' i raw e,
    params_UnmarshalJSON canonical_key zero_params
      (RawParams zero_params
         [good_template; bad_header_template; RawBad "never reached"])
    = (p', Some "invalid request at index 1: invalid header X-Test value")
    /\ [good_template; bad_header_template; RawBad "never reached"] !! i
       = Some raw
    /\ request_decode canonical_key raw = Err e
    /\ length (Requests p') = 3%nat.
Proof.
  eexists.
  destruct (params_UnmarshalJSON_first_error canonical_key zero_params
              zero_params
              [good_template; bad_header_template; RawBad "never reached"]
              _ _ eq_refl)
    as (i & raw & e & Hi & He & _ & _ & _ & Hlen & _).
  exists i, raw, e. split; [reflexivity |].
  split; [exact Hi |]. split; [exact He | exact Hlen].
Defined.

End ParamsTextFacts.

(* ===================================================================== *)
(** * Package tester, continued: status endpoint and pacing *)
(* ===================================================================== *)

Module TesterControl.
Import Go Shared SharedText Params Tester.

Definition StatusNotFound : Z := 404.

(** [w.Write(b)]. *)
Definition WriteBody (b : string) (w : Http.ResponseWriter)
  : Http.ResponseWriter :=
  let w := Http.WriteHeader Http.StatusOK w in
  {| Http.wroteHeader := Http.wroteHeader w; Http.header := Http.header w;
     Http.written := (Http.written w ++ [b])%list |}.

(** The status the client receives: the one written, or 200 when the
    handler returns without writing any. *)
Definition final_status (w : Http.ResponseWriter) : Z :=
  default Http.StatusOK (Http.wroteHeader w).

Definition jstring (s : string) : string := dquote ++ s ++ dquote.

(** The [switch s.status.Load()] of the status document. *)
Definition status_text (st : Z) : string :=
  if st =? statusReady then "ready"
  else if st =? statusTesting then "testing"
  else if st =? statusStopping then "stopping"
  else EmptyString.

(** [json.Marshal(body)] for the two-field document: [duration] carries
    [omitempty], so a zero duration is left out. *)
Definition status_document (st : string) (d : Shared.Duration) : string :=
  "{" ++ jstring "status" ++ ":" ++ jstring st
  ++ (if d =? 0 then EmptyString
      else "," ++ jstring "duration" ++ ":" ++ Duration_MarshalJSON d)
  ++ "}".

Record ServiceRequest : Type := { URL_Path : string; Method_ : string }.

(** [handleService].  The handler reads the service and writes the
    response; the boolean tells whether it called [s.shutdown()]. *)
Definition handleService (now : Z) (req : ServiceRequest) (s : service)
    (w : Http.ResponseWriter) : Http.ResponseWriter * bool :=
  let not_allowed allow w :=
    Http.Error "Method Not Allowed" Http.StatusMethodNotAllowed
               (Http.SetHeader "Allow" allow w) in
  if String.eqb (URL_Path req) "/__service"
     || String.eqb (URL_Path req) "/__service/" then
    if String.eqb (Method_ req) "GET" then
      let w := Http.SetHeader "Content-Type"
                 "application/json; charset=utf-8" w in
      let w := Http.WriteHeader Http.StatusOK w in
      let d := if status s =? statusTesting
               then runningUntil s - now else 0 in
      (WriteBody (status_document (status_text (status s)) d) w, false)
    else (not_allowed "GET" w, false)
  else if String.eqb (URL_Path req) "/__service/terminate"
          || String.eqb (URL_Path req) "/__service/terminate/" then
    if String.eqb (Method_ req) "POST" then
      (Http.WriteHeader Http.StatusOK w, true)
    else (not_allowed "POST" w, false)
  else (Http.Error "Not Found" StatusNotFound w, false).

(** ** Pacing *)

(** Arithmetic on [int64] / [time.Duration] wraps around. *)
Definition int64 (z : Z) : Z := (z + 2 ^ 63) mod 2 ^ 64 - 2 ^ 63.

Section Pacing.
(** What the conversion [int64(+Inf)] gives; the language leaves it to
    the implementation. *)
Variable int64_of_inf : Z.

(** [int64(math.Floor(6.0e4 / float64(pace)))].  For a pace of zero the
    quotient is [+Inf].  For a pace from 1 to 65535 the quotient is
    either an integer, which [float64] holds exactly, or at least
    [1/65535] away from the next integer, far more than the rounding
    error of a division; so the floor is the integer quotient. *)
Definition interval_ms (pace : Z) : Z :=
  if pace =? 0 then int64_of_inf else 60000 / pace.

(** [targetDuration] of [runTesters], before the workers start. *)
Definition targetDuration (p : Params.params) : Shared.Duration :=
  int64 (interval_ms (Pace p) * Millisecond).

(** The variable of the same name inside a worker:
    [targetDuration * time.Duration(s.params.ParallelTesters)]. *)
Definition worker_targetDuration (p : Params.params) : Shared.Duration :=
  int64 (targetDuration p * ParallelTesters p).

(** The argument of [time.Sleep] at the end of a turn; zero when the
    turn does not sleep. *)
Definition pacing_sleep (p : Params.params) (elapsed : Shared.Duration)
  : Shared.Duration :=
  if elapsed <? worker_targetDuration p
  then worker_targetDuration p - elapsed else 0.

End Pacing.

End TesterControl.

Module TesterControlFacts.
Import Go Shared SharedText Params Tester TesterControl TesterFacts.

(** ** What [POST /test] answers *)

Ltac run_handleTest :=
  unfold handleTest, CompareAndSwap; simpl;
  repeat match goal with
  | |- context [ String.eqb ?a ?b ] => destruct (String.eqb_spec a b)
  | |- context [ match r_Body ?r with _ => _ end ] =>
      destruct (r_Body r) as [| ? [?|] | ?]
  | |- context [ Z.ltb ?a ?b ] => destruct (Z.ltb_spec a b)
  | |- context [ Z.eqb ?a ?b ] => destruct (Z.eqb_spec a b)
  end; simpl.

Ltac finish_answers :=
  repeat match goal with
  | H : _ /\ _ |- _ => destruct H
  | H : exists _, _ |- _ => destruct H
  | H : Decoded _ = Decoded _ |- _ => injection H as <-
  | H : _ = Decoded _ |- _ => discriminate H
  | H : Some _ = Some _ |- _ => discriminate H
  end;
  try congruence; try lia;
  try (split; [assumption |]; eexists;
       repeat split; (reflexivity || assumption || lia));
  auto.

(** X12. [handleTest] answers 200 exactly when the method is POST, the
    body decodes to a configuration whose duration is not negative, and
    the status word is [ready]; it answers 503 exactly when the first
    three hold and the status word is not [ready]; and it never answers
    anything but 200, 400, 405 or 503. *)
Theorem handleTest_answers (now : Z) (req : Request) (s : service) :
  let code := Http.wroteHeader
                (snd (handleTest now req s Http.NewRecorder)) in
  (code = Some 200 <->
     r_Method req = "POST"
     /\ exists p, r_Body req = Decoded p /\ 0 <= Duration p
                  /\ status s = statusReady)
  /\ (code = Some 503 <->
        r_Method req = "POST"
        /\ exists p, r_Body req = Decoded p /\ 0 <= Duration p
                     /\ status s <> statusReady)
  /\ (code = Some 200 \/ code = Some 400 \/ code = Some 405
      \/ code = Some 503).
Proof.
  run_handleTest;
    unfold Http.StatusOK, Http.StatusBadRequest,
      Http.StatusMethodNotAllowed, Http.StatusServiceUnavailable;
    (split; [split; intros | split; [split; intros |]]);
    finish_answers.
Qed.

Lemma handleTest_answers_witness :
  Http.wroteHeader
    (snd (handleTest 1000 (POST (Decoded smoke)) NewService
                     Http.NewRecorder)) = Some 200
  /\ r_Method (POST (Decoded smoke)) = "POST"
  /\ exists p, r_Body (POST (Decoded smoke)) = Decoded p
               /\ 0 <= Duration p /\ status NewService = statusReady.
Proof.
  split; [reflexivity |].
  destruct (handleTest_answers 1000 (POST (Decoded smoke)) NewService)
    as [[Hcode _] _].
  apply Hcode. reflexivity.
Defined.

(** X13. [handleTest] changes the status word only by admitting a run
    ([ready] to [testing], answered 200), and an answer of 400 or 405
    leaves the run untouched: status word, start and end times, test
    context, both channels and the list of launched goroutines are what
    they were. *)
Theorem handleTest_refusal_keeps_run (now : Z) (req : Request) (s : service) :
  let out := handleTest now req s Http.NewRecorder in
  (status (fst out) = status s
   \/ (status s = statusReady /\ status (fst out) = statusTesting
       /\ Http.wroteHeader (snd out) = Some 200))
  /\ (Http.wroteHeader (snd out) = Some 400
      \/ Http.wroteHeader (snd out) = Some 405 ->
      status (fst out) = status s
      /\ startedAt (fst out) = startedAt s
      /\ runningUntil (fst out) = runningUntil s
      /\ testCtx (fst out) = testCtx s
      /\ ids (fst out) = ids s
      /\ results (fst out) = results s
      /\ launched (fst out) = launched s).
Proof.
  run_handleTest;
    unfold Http.StatusOK, Http.StatusBadRequest,
      Http.StatusMethodNotAllowed, Http.StatusServiceUnavailable;
    (split; [auto |]);
    intros [Hcode | Hcode]; try discriminate Hcode; repeat split.
Qed.

Lemma handleTest_refusal_keeps_run_witness :
  let busy := fst (handleTest 1000 (POST (Decoded smoke)) NewService
                              Http.NewRecorder) in
  let out := handleTest 5000
               {| r_Method := "GET"; r_Body := Decoded smoke |} busy
               Http.NewRecorder in
  Http.wroteHeader (snd out) = Some 405
  /\ status (fst out) = statusTesting
  /\ launched (fst out) = launched busy.
Proof.
  intros busy out. split; [reflexivity |].
  destruct (handleTest_refusal_keeps_run 5000
              {| r_Method := "GET"; r_Body := Decoded smoke |} busy)
    as [_ Hkeep].
  destruct Hkeep as (Hs & _ & _ & _ & _ & _ & Hl);
    [right; reflexivity |].
  split; [exact Hs | exact Hl].
Defined.

(** X14. A POST whose body decodes replaces the stored parameters
    whatever the state of the service and whatever the answer: a
    configuration with a negative duration is stored as decoded (and
    answered 400), any other one is stored with its defaults, also
    while a test is running. *)
Theorem handleTest_stores_decoded (now : Z) (p : Params.params)
    (s : service) :
  params (fst (handleTest now (POST (Decoded p)) s Http.NewRecorder))
  = if Duration p <? 0 then p else with_defaults p.
Proof.
  unfold handleTest, POST, CompareAndSwap. simpl.
  destruct (Duration p <? 0); [reflexivity |].
  now destruct (status s =? statusReady).
Qed.

(** X15. The defaults: after [with_defaults] the schema and the name of
    the id header are not empty and the version is not [0.0]; values
    that were set are kept; applying the defaults twice changes
    nothing. *)
Theorem with_defaults_fills (p : Params.params) :
  let q := with_defaults p in
  ReqSchema q <> EmptyString
  /\ ReqIDHeader q <> EmptyString
  /\ ReqVersion q <> (0, 0)
  /\ (ReqSchema p <> EmptyString -> ReqSchema q = ReqSchema p)
  /\ (ReqIDHeader p <> EmptyString -> ReqIDHeader q = ReqIDHeader p)
  /\ (ReqVersion p <> (0, 0) -> ReqVersion q = ReqVersion p)
  /\ with_defaults q = q.
Proof.
  destruct p as [name dur pace n timeout choice schema [a b] hdr reqs].
  unfold with_defaults. simpl.
  destruct (String.eqb_spec schema EmptyString) as [-> | Hs];
    destruct (String.eqb_spec hdr EmptyString) as [-> | Hh];
    destruct a as [| a | a]; destruct b as [| b | b]; simpl;
    repeat match goal with
    | |- context [ String.eqb ?x ?y ] =>
        destruct (String.eqb_spec x y); [congruence |]
    end;
    repeat split; intros; congruence.
Qed.

Lemma with_defaults_fills_witness :
  ReqSchema zero_params = EmptyString
  /\ ReqSchema (with_defaults zero_params) = "http"
  /\ ReqVersion (with_defaults zero_params) = (1, 1)
  /\ ReqIDHeader (with_defaults zero_params) = "X-Request-ID"
  /\ ReqIDHeader (with_defaults smoke) = ReqIDHeader smoke.
Proof.
  do 4 (split; [reflexivity |]).
  destruct (with_defaults_fills smoke) as (_ & _ & _ & _ & Hh & _).
  apply Hh. discriminate.
Defined.

(** ** The status endpoint *)

Definition json_content_type : string := "application/json; charset=utf-8".

(** X16. [GET /__service] does not call shutdown and answers 200 with
    a JSON document that names the status; the remaining time
    [runningUntil - now] appears, as the quoted text of
    [Duration.String], exactly when the status is [testing] and that
    time is not zero (it is negative once the deadline has passed and
    the status has not been reset yet). *)
Theorem handleService_status_document (now : Z) (s : service)
    (path : string) :
  path = "/__service" \/ path = "/__service/" ->
  let out := handleService now {| URL_Path := path; Method_ := "GET" |} s
               Http.NewRecorder in
  snd out = false
  /\ Http.wroteHeader (fst out) = Some 200
  /\ Http.header (fst out) !! "Content-Type" = Some [json_content_type]
  /\ Http.written (fst out)
     = [ "{" ++ jstring "status" ++ ":" ++ jstring (status_text (status s))
         ++ (if (status s =? statusTesting) && negb (runningUntil s =? now)
             then "," ++ jstring "duration" ++ ":"
                  ++ jstring (Duration_String (runningUntil s - now))
             else EmptyString)
         ++ "}" ].
Proof.
  intros [-> | ->]; simpl; repeat split;
    unfold status_document, Duration_MarshalJSON, jstring, Duration_String;
    (destruct (status s =? statusTesting); simpl; [| reflexivity]);
    (destruct (Z.eqb_spec (runningUntil s) now) as [-> | Hne];
     [ rewrite Z.sub_diag; reflexivity |]);
    (destruct (Z.eqb_spec (runningUntil s - now) 0); [lia | reflexivity]).
Qed.

Lemma handleService_status_document_witness :
  let busy := fst (handleTest 1000 (POST (Decoded smoke)) NewService
                              Http.NewRecorder) in
  Http.written
    (fst (handleService 738001000
            {| URL_Path := "/__service"; Method_ := "GET" |} busy
            Http.NewRecorder))
  = [ "{" ++ jstring "status" ++ ":" ++ jstring "testing" ++ ","
      ++ jstring "duration" ++ ":" ++ jstring "1262ms" ++ "}" ].
Proof.
  intros busy.
  destruct (handleService_status_document 738001000 busy "/__service")
    as (_ & _ & _ & Hdoc); [left; reflexivity |].
  exact Hdoc.
Defined.

(** X17. Routing of [handleService]: shutdown is called exactly for a
    POST to one of the two terminate paths (answered 200); a known path
    with another method is answered 405 with an [Allow] header naming
    the one method of that path; any other path is answered 404; and
    the handler answers nothing but 200, 404 or 405. *)
Theorem handleService_routes (now : Z) (req : ServiceRequest) (s : service) :
  let out := handleService now req s Http.NewRecorder in
  let code := Http.wroteHeader (fst out) in
  let on_status := URL_Path req = "/__service"
                   \/ URL_Path req = "/__service/" in
  let on_terminate := URL_Path req = "/__service/terminate"
                      \/ URL_Path req = "/__service/terminate/" in
  (snd out = true <-> on_terminate /\ Method_ req = "POST")
  /\ (snd out = true -> code = Some 200)
  /\ (on_status -> Method_ req <> "GET" ->
      code = Some 405 /\ Http.header (fst out) !! "Allow" = Some ["GET"])
  /\ (on_terminate -> Method_ req <> "POST" ->
      code = Some 405 /\ Http.header (fst out) !! "Allow" = Some ["POST"])
  /\ (~ on_status -> ~ on_terminate -> code = Some 404)
  /\ (code = Some 200 \/ code = Some 404 \/ code = Some 405).
Proof.
  unfold handleService.
  destruct (String.eqb_spec (URL_Path req) "/__service") as [Hp1 | Hp1];
  destruct (String.eqb_spec (URL_Path req) "/__service/") as [Hp2 | Hp2];
  destruct (String.eqb_spec (URL_Path req) "/__service/terminate")
    as [Hp3 | Hp3];
  destruct (String.eqb_spec (URL_Path req) "/__service/terminate/")
    as [Hp4 | Hp4];
  try congruence;
  destruct (String.eqb_spec (Method_ req) "GET") as [Hg | Hg];
  destruct (String.eqb_spec (Method_ req) "POST") as [Hq | Hq];
  try congruence; simpl;
  repeat split; intros;
  repeat match goal with
  | H : _ /\ _ |- _ => destruct H
  | H : _ \/ _ |- _ => destruct H
  end;
  try congruence; try discriminate; try tauto; auto.
Qed.

Lemma handleService_routes_witness :
  let out := handleService 0 {| URL_Path := "/__service/terminate";
                                Method_ := "POST" |}
               NewService Http.NewRecorder in
  let out' := handleService 0 {| URL_Path := "/__service/terminate";
                                 Method_ := "GET" |}
                NewService Http.NewRecorder in
  snd out = true /\ Http.wroteHeader (fst out) = Some 200
  /\ Http.header (fst out') !! "Allow" = Some ["POST"].
Proof.
  intros out out'. split; [reflexivity |].
  destruct (handleService_routes 0 {| URL_Path := "/__service/terminate";
                                      Method_ := "POST" |} NewService)
    as (_ & Hshut & _).
  split; [apply Hshut; reflexivity |].
  destruct (handleService_routes 0 {| URL_Path := "/__service/terminate";
                                      Method_ := "GET" |} NewService)
    as (_ & _ & _ & Hallow & _).
  apply Hallow; [left; reflexivity | discriminate].
Defined.

(** ** Pacing *)

Lemma int64_small (z : Z) : - 2 ^ 63 <= z < 2 ^ 63 -> int64 z = z.
Proof. intros H. unfold int64. rewrite Z.mod_small; lia. Qed.

(** X18. Pacing for a pace from 1 to 65535 requests per minute and up
    to 255 workers.  The base interval is [60000 / pace] whole
    milliseconds, so [pace] intervals never exceed a minute and
    [pace] intervals of one more millisecond would; each worker waits
    that interval times the number of workers; a turn together with
    its sleep lasts the longer of the request and the worker's
    interval; and a pace above 60000 gives an interval of zero, so that
    no worker ever sleeps. *)
Theorem pacing_interval (int64_of_inf : Z) (p : Params.params)
    (elapsed : Shared.Duration) :
  1 <= Pace p <= 65535 ->
  0 <= ParallelTesters p <= 255 ->
  let base := 60000 / Pace p in
  targetDuration int64_of_inf p = base * Millisecond
  /\ Pace p * base <= 60000 < Pace p * (base + 1)
  /\ worker_targetDuration int64_of_inf p
     = ParallelTesters p * (base * Millisecond)
  /\ elapsed + pacing_sleep int64_of_inf p elapsed
     = Z.max elapsed (worker_targetDuration int64_of_inf p)
  /\ (60000 < Pace p -> 0 <= elapsed ->
      pacing_sleep int64_of_inf p elapsed = 0).
Proof.
  intros Hp Hn base.
  assert (Hbase : 0 <= base <= 60000).
  { unfold base. split; [apply Z.div_pos; lia |].
    apply Z.div_le_upper_bound; lia. }
  assert (Htarget : targetDuration int64_of_inf p = base * Millisecond).
  { unfold targetDuration, interval_ms.
    destruct (Z.eqb_spec (Pace p) 0); [lia |].
    apply int64_small. fold base. unfold Millisecond. lia. }
  assert (Hworker : worker_targetDuration int64_of_inf p
                    = ParallelTesters p * (base * Millisecond)).
  { unfold worker_targetDuration. rewrite Htarget.
    rewrite int64_small; [lia |]. unfold Millisecond. nia. }
  split; [exact Htarget |].
  split.
  { unfold base.
    pose proof (Z.div_mod 60000 (Pace p) ltac:(lia)).
    pose proof (Z.mod_pos_bound 60000 (Pace p) ltac:(lia)). lia. }
  split; [exact Hworker |].
  split.
  { unfold pacing_sleep.
    destruct (Z.ltb_spec elapsed (worker_targetDuration int64_of_inf p));
      lia. }
  intros Hfast Hel. unfold pacing_sleep. rewrite Hworker.
  assert (Hzero : base = 0) by (unfold base; apply Z.div_small; lia).
  rewrite Hzero.
  destruct (Z.ltb_spec elapsed (ParallelTesters p * (0 * Millisecond)));
    lia.
Qed.

Lemma pacing_interval_witness :
  let p := config (10 * Second) (500 * Millisecond) 2 "roundrobin"
                  [get_x] in
  1 <= Pace p <= 65535
  /\ targetDuration 0 p = 1000 * Millisecond
  /\ worker_targetDuration 0 p = 2000 * Millisecond
  /\ pacing_sleep 0 p (3 * Millisecond) = 1997 * Millisecond.
Proof.
  intros p.
  destruct (pacing_interval 0 p (3 * Millisecond)) as (Ht & _ & Hw & _);
    [simpl; lia | simpl; lia |].
  split; [simpl; lia |]. split; [exact Ht |]. split; [exact Hw |].
  reflexivity.
Defined.

(** ** Spin-up, where it goes through *)

Definition total (ds : list Z) : Z := foldr Z.add 0 ds.

Lemma total_below (window : Z) (ds : list Z) :
  Forall (fun d => 0 <= d < window) ds ->
  ds <> [] ->
  0 <= total ds < Z.of_nat (length ds) * window.
Proof.
  intros Hall. induction Hall as [| d ds Hd Hall IH]; [congruence |].
  intros _. destruct ds as [| d' ds'].
  - simpl. lia.
  - specialize (IH ltac:(discriminate)).
    change (total (d :: d' :: ds')) with (d + total (d' :: ds')).
    rewrite (length_cons d). lia.
Qed.

(** X19. With 1 to 255 workers and a duration of at least four
    nanoseconds per worker the spin-up computation does not fail: it
    yields one sleep per worker, each at least zero and less than the
    window [min (duration / 4) 10s] divided by the number of workers,
    so that all the sleeps together stay below the window, which itself
    is at most ten seconds and a quarter of the test. *)
Theorem runTesters_spinup_total (p : Params.params) (raw : nat -> Z) :
  1 <= ParallelTesters p <= 255 ->
  4 * ParallelTesters p <= Duration p ->
  let window := Z.min (Duration p / 4) (10 * Second) in
  exists ds,
    runTesters_spinup p raw = Ok ds
    /\ length ds = Z.to_nat (ParallelTesters p)
    /\ Forall (fun d => 0 <= d < window / ParallelTesters p) ds
    /\ 0 <= total ds < window
    /\ window <= 10 * Second /\ 4 * window <= Duration p.
Proof.
  intros HN HD window.
  destruct (runTesters_spinup_bounds p raw HN HD) as (ds & Hrun & Hlen & Hall).
  exists ds. split; [exact Hrun |]. split; [exact Hlen |].
  split; [exact Hall |].
  assert (Hne : ds <> []).
  { intros ->. simpl in Hlen. lia. }
  pose proof (total_below _ ds Hall Hne) as Ht.
  rewrite Hlen, Z2Nat.id in Ht by lia.
  pose proof (Z.mul_div_le window (ParallelTesters p) ltac:(lia)).
  fold window in Ht.
  split; [lia |].
  split; [apply Z.le_min_r |].
  pose proof (Z.le_min_l (Duration p / 4) (10 * Second)).
  pose proof (Z.mul_div_le (Duration p) 4 ltac:(lia)).
  fold window in H0. lia.
Qed.

Lemma runTesters_spinup_total_witness :
  let p := config (10 * Second) (500 * Millisecond) 4 "roundrobin"
                  [get_x] in
  exists ds,
    runTesters_spinup p (fun i => 1000000007 * Z.of_nat (S i)) = Ok ds
    /\ length ds = 4%nat
    /\ 0 <= total ds < 2500 * Millisecond.
Proof.
  intros p.
  destruct (runTesters_spinup_total
              p (fun i => 1000000007 * Z.of_nat (S i)))
    as (ds & Hrun & Hlen & _ & Htotal & _);
    [simpl; lia | simpl; unfold Second, Millisecond; lia |].
  exists ds. split; [exact Hrun |]. split; [exact Hlen |]. exact Htotal.
Defined.

(** ** More on the worker loop *)

Lemma worker_loop_random (p : Params.params) (es : list exchange)
    (w : worker) :
  Choice p = "random" ->
  (2 <= length (Requests p))%nat ->
  worker_loop p w es
  = Ok (map (fun e =>
               turn_of p
                 (template p (raw e mod Z.of_nat (length (Requests p)))) e)
            es).
Proof.
  intros Hrnd Hlen. revert w. induction es as [| e es IH]; intros w;
    [reflexivity |].
  set (n := Z.of_nat (length (Requests p))) in *.
  assert (Hn : 2 <= n) by (unfold n; lia).
  simpl. rewrite (iteration_turn p w e (template p (raw e mod n))).
  - simpl. rewrite IH. reflexivity.
  - unfold select_request, IntN. fold n. rewrite Hrnd.
    destruct (Z.eqb_spec n 1) as [? | _]; [lia |]. simpl.
    destruct (Z.leb_spec n 0) as [? | _]; [lia |]. simpl.
    apply index_in_range. fold n. apply Z.mod_pos_bound. lia.
Qed.

Lemma template_configured (p : Params.params) (i : Z) :
  0 <= i < Z.of_nat (length (Requests p)) ->
  template p i ∈ Requests p.
Proof.
  intros Hi. unfold template.
  destruct (Requests p !! Z.to_nat i) as [x |] eqn:Hx.
  - simpl. eapply list_elem_of_lookup_2. exact Hx.
  - apply lookup_ge_None in Hx. lia.
Qed.

(** X20. With [choice = random] and two or more templates the loop
    does not fail, whatever the generator returns, and every turn uses
    one of the configured templates: the one at the generator's output
    reduced to the length of the list. *)
Theorem worker_random_choice (p : Params.params) (es : list exchange) :
  Choice p = "random" ->
  (2 <= length (Requests p))%nat ->
  exists ts,
    worker_loop p new_worker es = Ok ts
    /\ length ts = length es
    /\ (forall t, t ∈ ts -> used t ∈ Requests p)
    /\ (forall (k : nat) t e, ts !! k = Some t -> es !! k = Some e ->
          Requests p
            !! Z.to_nat (raw e mod Z.of_nat (length (Requests p)))
          = Some (used t)).
Proof.
  intros Hrnd Hlen. eexists.
  split; [now apply worker_loop_random |].
  set (n := Z.of_nat (length (Requests p))).
  assert (Hn : 0 < n) by (unfold n; lia).
  split; [apply length_map |]. split.
  - intros t Ht. apply list_elem_of_fmap in Ht as (e & -> & _). simpl.
    apply template_configured. apply Z.mod_pos_bound. exact Hn.
  - intros k t e Hk He. rewrite list_lookup_fmap, He in Hk.
    injection Hk as <-. simpl. unfold template.
    pose proof (Z.mod_pos_bound (raw e) n Hn) as Hb.
    destruct (Requests p !! Z.to_nat (raw e mod n)) as [x |] eqn:Hx;
      [reflexivity |].
    apply lookup_ge_None in Hx. unfold n in *. lia.
Qed.

Lemma worker_random_choice_witness :
  exists ts,
    worker_loop (two_paths "random") new_worker six_exchanges = Ok ts
    /\ length ts = 6%nat
    /\ forall t, t ∈ ts -> used t ∈ [get_a; get_b].
Proof.
  destruct (worker_random_choice (two_paths "random") six_exchanges)
    as (ts & Hrun & Hlen & Hin & _); [reflexivity | simpl; lia |].
  exists ts. split; [exact Hrun |]. split; [exact Hlen | exact Hin].
Defined.

(** X21. A configuration without any request template is admitted by
    [POST /test] when its duration is not negative and the service is
    ready, and then every worker panics in its first turn when the
    choice is [roundrobin] (division by zero in the index) or [random]
    (the generator refuses a bound of zero). *)
Theorem worker_without_templates (now : Z) (p : Params.params)
    (w : worker) (e : exchange) (es : list exchange) :
  Requests p = [] ->
  0 <= Duration p ->
  Http.wroteHeader
    (snd (handleTest now (POST (Decoded p)) NewService Http.NewRecorder))
  = Some 200
  /\ Requests (params (fst (handleTest now (POST (Decoded p)) NewService
                                       Http.NewRecorder))) = []
  /\ (Choice p = "roundrobin" ->
      worker_loop p w (e :: es)
      = Panic "runtime error: integer divide by zero")
  /\ (Choice p = "random" ->
      worker_loop p w (e :: es) = Panic "invalid argument to IntN").
Proof.
  intros Hnone Hdur.
  destruct (handleTest_accepts now p NewService eq_refl Hdur)
    as (s' & -> & _ & Hp & _).
  split; [reflexivity |]. split; [simpl; now rewrite Hp |].
  split; intros Hc; simpl; unfold iteration, select_request;
    rewrite Hc, Hnone; reflexivity.
Qed.

Lemma worker_without_templates_witness :
  let p := config (2 * Second) (500 * Millisecond) 1 "random" [] in
  Http.wroteHeader
    (snd (handleTest 1000 (POST (Decoded p)) NewService Http.NewRecorder))
  = Some 200
  /\ worker_loop p new_worker six_exchanges
     = Panic "invalid argument to IntN".
Proof.
  intros p.
  destruct (worker_without_templates 1000 p new_worker (served 200 1)
              (map (served 200) [2; 3; 4; 5; 6]))
    as (Hcode & _ & _ & Hrnd); [reflexivity | now vm_compute |].
  split; [exact Hcode | apply Hrnd; reflexivity].
Defined.

Lemma iteration_pushed (p : Params.params) (w w' : worker) (e : exchange)
    (t : turn) :
  iteration p w e = Ok (w', t) ->
  pushed t = if newRequestFails e then None
             else Some (build_result p (used t) e).
Proof.
  unfold iteration.
  destruct (select_request p (localN w + 1) (r w) (raw e)) as [r' | |];
    simpl; try discriminate.
  destruct (newRequestFails e); intros [= _ <-]; reflexivity.
Qed.

(** X22. Whatever the configuration, when a worker's loop ends
    without panic it has made one turn per exchange, and the records it
    pushed are, in order, those of the turns whose request could be
    built: their [ReqNum] columns are the decimal values of the shared
    counter handed to those turns, and each carries the test name. *)
Theorem worker_records_in_order (p : Params.params) (w : worker)
    (es : list exchange) (ts : list turn) :
  worker_loop p w es = Ok ts ->
  length ts = length es
  /\ map (col trRequestNum) (records ts)
     = map (fun e => Itoa (globalN e))
           (filter (fun e => newRequestFails e = false) es)
  /\ Forall (fun rec => col trTestName rec = Name p) (records ts).
Proof.
  revert w ts. induction es as [| e es IH]; intros w ts; simpl.
  - intros [= <-]. repeat split. constructor.
  - destruct (iteration p w e) as [[w' t] | |] eqn:Hit; simpl;
      try discriminate.
    destruct (worker_loop p w' es) as [ts' | |] eqn:Hrest; simpl;
      try discriminate.
    intros [= <-]. destruct (IH w' ts' Hrest) as (Hlen & Hnum & Hname).
    split; [simpl; now rewrite Hlen |].
    pose proof (iteration_pushed p w w' e t Hit) as Hp.
    assert (Hrec : records (t :: ts')
                   = if newRequestFails e then records ts'
                     else build_result p (used t) e :: records ts').
    { unfold records. simpl. rewrite Hp. now destruct (newRequestFails e). }
    rewrite Hrec.
    destruct (newRequestFails e) eqn:Hf.
    + rewrite filter_cons_False by congruence. split; assumption.
    + rewrite filter_cons_True by exact Hf.
      destruct (build_result_columns p (used t) e)
        as (_ & Hn & _ & Hg & _).
      cbn [map]. rewrite Hnum, Hg. split; [reflexivity |].
      constructor; assumption.
Qed.

Definition unbuildable (n : Z) : exchange :=
  {| globalN := n; raw := 0; newRequestFails := true;
     id := EmptyString; reqTime := EmptyString; resp := None;
     err := None; elapsed := 0 |}.

Lemma worker_records_in_order_witness :
  exists ts,
    worker_loop smoke new_worker [served 200 1; unbuildable 2; served 500 3]
    = Ok ts
    /\ length ts = 3%nat
    /\ map (col trRequestNum) (records ts) = ["1"; "3"].
Proof.
  eexists. split; [reflexivity |].
  destruct (worker_records_in_order smoke new_worker
              [served 200 1; unbuildable 2; served 500 3] _ eq_refl)
    as (Hlen & Hnum & _).
  split; [exact Hlen | exact Hnum].
Defined.

End TesterControlFacts.

(* ===================================================================== *)
(** * Package collector *)
(* ===================================================================== *)

Module Collector.
Import Go Shared SharedText TesterControl.

Definition BufferSize : Z := 10.
Definition StatusUnsupportedMediaType : Z := 415.
Definition form_urlencoded : string := "application/x-www-form-urlencoded".

(** The part of the collector's [service] its handlers and its writer
    act on: the content of the [results] channel, oldest first, and the
    rows handed to the CSV writer so far. *)
Record service : Type := {
  results : list TestResult;
  rows : list (list string)
}.

Definition NewCollectService : service := {| results := []; rows := [] |}.

(** A request as [handleDefault] looks at it: the method, the value of
    [r.Header.Get("Content-Type")], and the outcome of [r.ParseForm()]
    ([None] for an error, otherwise [r.Form]). *)
Record Request : Type := {
  Method : string;
  ContentType : string;
  Form : option Values
}.

(** [select { case s.results <- v: default: }]: the value is queued when
    the buffer has room and dropped otherwise. *)
Definition try_send (v : TestResult) (s : service) : service :=
  if Z.of_nat (length (results s)) <? BufferSize
  then {| results := (results s ++ [v])%list; rows := rows s |}
  else s.

(** [handleDefault]. *)
Definition handleDefault (r : Request) (s : service)
    (w : Http.ResponseWriter) : service * Http.ResponseWriter :=
  if String.eqb (Method r) "POST" then
    if negb (String.eqb (ContentType r) form_urlencoded) then
      (s, Http.Error "Unsupported Content-Type" StatusUnsupportedMediaType w)
    else
      match Form r with
      | None => (s, Http.Error "Invalid form data" Http.StatusBadRequest w)
      | Some vs => (try_send (NewTestResult vs) s, w)
      end
  else
    (s, Http.Error "Method Not Allowed" Http.StatusMethodNotAllowed
                   (Http.SetHeader "Allow" "POST" w)).

(** One turn of the [case r, ok := <-s.results] branch of
    [processResults] on an open channel: the oldest record leaves the
    channel and its columns are handed to the CSV writer.  With an empty
    channel the writer waits. *)
Definition receive (s : service) : service :=
  match results s with
  | r :: rest =>
      {| results := rest; rows := (rows s ++ [Slice r])%list |}
  | [] => s
  end.

(** What happens to the collector, in the order it happens. *)
Inductive event : Type :=
| Arrives (r : Request)
| Receives.

(** The service after a run of events, with the status each request was
    answered with. *)
Fixpoint run (evs : list event) (s : service) : service * list Z :=
  match evs with
  | [] => (s, [])
  | Arrives r :: evs' =>
      let '(s', w) := handleDefault r s Http.NewRecorder in
      let '(s'', codes) := run evs' s' in
      (s'', final_status w :: codes)
  | Receives :: evs' => run evs' (receive s)
  end.

(** The records of the requests that get as far as the channel. *)
Definition offered (evs : list event) : list TestResult :=
  omap (fun ev =>
          match ev with
          | Arrives r =>
              if String.eqb (Method r) "POST"
                 && String.eqb (ContentType r) form_urlencoded
              then NewTestResult <$> Form r else None
          | Receives => None
          end) evs.

End Collector.

(* ===================================================================== *)
(** * Package mock *)
(* ===================================================================== *)

Module Mock.
Import Go TesterControl.

Definition statusReady : Z := 0.
Definition statusRunning : Z := 1.
Definition statusStopping : Z := 2.

Record latency : Type := { Min : Shared.Duration; Max : Shared.Duration }.

(** [params]; the two bands are [Response.HeaderLatency] and
    [Response.Duration]. *)
Record params : Type := {
  Duration : Shared.Duration;
  Response_HeaderLatency : latency;
  Response_Duration : latency
}.

Definition zero_params : params :=
  {| Duration := 0;
     Response_HeaderLatency := {| Min := 0; Max := 0 |};
     Response_Duration := {| Min := 0; Max := 0 |} |}.

(** The fields of the mock's [service] a run touches; [resets] lists
    the sleeps of the goroutines that will store [ready] again. *)
Record service : Type := {
  status : Z;
  s_params : params;
  startedAt : Z;
  runningUntil : Z;
  resets : list Z
}.

Definition NewService : service :=
  {| status := statusReady; s_params := zero_params; startedAt := 0;
     runningUntil := 0; resets := [] |}.

Definition store (p : params) (s : service) : service :=
  {| status := status s; s_params := p; startedAt := startedAt s;
     runningUntil := runningUntil s; resets := resets s |}.

(** What reading and decoding the body into [s.params] gives; [stored]
    is what a failed decoding left there. *)
Inductive body : Type :=
| ReadFailed
| Malformed (err : string) (stored : params)
| Decoded (p : params).

Record Request : Type := { Method : string; Body : body }.

(** [handleMock], with [now] the reading of [time.Now()]. *)
Definition handleMock (now : Z) (r : Request) (s : service)
    (w : Http.ResponseWriter) : service * Http.ResponseWriter :=
  let bad msg s := (s, Http.Error msg Http.StatusBadRequest w) in
  if String.eqb (Method r) "POST" then
    match Body r with
    | ReadFailed => bad "Failed to read request body" s
    | Malformed e stored => bad ("Malformed JSON: " ++ e) (store stored s)
    | Decoded p =>
        let s := store p s in
        let hl := Response_HeaderLatency (s_params s) in
        let rd := Response_Duration (s_params s) in
        if Duration (s_params s) <? 0 then
          bad "Invalid service duration: must be >= 0" s
        else if (Min hl <? 0) || (Min hl >? Max hl) then
          bad "Invalid header latency: min must be >= 0 and <= max" s
        else if (Min rd <? 0) || (Min rd >? Max rd) then
          bad "Invalid response duration: min must be >= 0 and <= max" s
        else if negb (status s =? statusReady) then
          (s, Http.Error "Mock service is already running."
                         Http.StatusServiceUnavailable w)
        else
          ({| status := statusRunning; s_params := s_params s;
              startedAt := now;
              runningUntil := now + Duration (s_params s);
              resets := (resets s ++ [Duration (s_params s)])%list |},
           Http.WriteHeader Http.StatusOK w)
    end
  else
    (s, Http.Error "Method Not Allowed" Http.StatusMethodNotAllowed
                   (Http.SetHeader "Allow" "POST" w)).

(** What the traffic handler does that a client can see: the sleeps, in
    order, and the response. *)
Record served : Type := {
  sleeps : list Shared.Duration;
  response : Http.ResponseWriter
}.

(** One band: [min], plus a draw below [max - min] when that width is
    positive. *)
Definition draw_delay (band : latency) (raw : Z) : result Shared.Duration :=
  let d := int64 (Max band - Min band) in
  if d >? 0 then
    n ← Tester.Int64N raw d; mret (int64 (Min band + n))
  else Ok (Min band).

(** [handleDefault]; [raw_resp] and [raw_head] are the outputs of the
    generator for the two draws, in the order the handler makes them. *)
Definition handleDefault (raw_resp raw_head : Z) (s : service)
    (w : Http.ResponseWriter) : result served :=
  if negb (status s =? statusRunning) then
    Ok {| sleeps := [];
          response := Http.Error "Service has not started."
                                 Http.StatusServiceUnavailable w |}
  else
    respDelay ← draw_delay (Response_Duration (s_params s)) raw_resp;
    headDelay ← draw_delay (Response_HeaderLatency (s_params s)) raw_head;
    let w := Http.SetHeader "Content-Type" "text/plain; charset=utf-8" w in
    let slept := if headDelay >? 0 then [headDelay] else [] in
    let w := Http.WriteHeader Http.StatusOK w in
    let respDelay := int64 (respDelay - headDelay) in
    if respDelay <=? 0 then Ok {| sleeps := slept; response := w |}
    else
      Ok {| sleeps := (slept ++ [respDelay])%list;
            response := WriteBody (String "010"%char EmptyString) w |}.

End Mock.

(* ===================================================================== *)
(** * Package middleware *)
(* ===================================================================== *)

Module Middleware.

(** What a chain of handlers does to a request, in order. *)
Inductive step : Type :=
| DebugLine
| Inner (name : string)
| DrainBody
| CloseBody.

(** An [http.HandlerFunc], seen as the steps it adds to those already
    taken. *)
Definition HandlerFunc := list step -> list step.

(** [DrainAndCloseHandler]. *)
Definition DrainAndCloseHandler (next : HandlerFunc) : HandlerFunc :=
  fun done => (next done ++ [DrainBody; CloseBody])%list.

(** [DebugHandler]. *)
Definition DebugHandler (next : HandlerFunc) : HandlerFunc :=
  fun done => next (done ++ [DebugLine])%list.

(** The loop of [WrapHandlerFuncs], [i] running from [len(wraps) - 1]
    down to zero: [countdown] holds [wraps[i]], [wraps[i - 1]], ... *)
Fixpoint wrap_loop (chain : HandlerFunc)
    (countdown : list (HandlerFunc -> HandlerFunc)) : HandlerFunc :=
  match countdown with
  | [] => chain
  | wrap :: rest => wrap_loop (wrap chain) rest
  end.

(** [WrapHandlerFuncs]. *)
Definition WrapHandlerFuncs (h : HandlerFunc)
    (wraps : list (HandlerFunc -> HandlerFunc)) : HandlerFunc :=
  wrap_loop h (rev wraps).

End Middleware.

Module CollectorFacts.
Import Go Shared SharedText TesterControl Collector.

Lemma try_send_bounded (v : TestResult) (s : service) :
  Z.of_nat (length (results s)) <= BufferSize ->
  Z.of_nat (length (results (try_send v s))) <= BufferSize.
Proof.
  intros H. unfold try_send.
  destruct (Z.ltb_spec (Z.of_nat (length (results s))) BufferSize);
    [| exact H].
  simpl. rewrite length_app. simpl. lia.
Qed.

Lemma handleDefault_cases (r : Request) (s : service) :
  (exists vs, String.eqb (Method r) "POST"
                && String.eqb (ContentType r) form_urlencoded = true
              /\ Form r = Some vs
              /\ handleDefault r s Http.NewRecorder
                 = (try_send (NewTestResult vs) s, Http.NewRecorder))
  \/ ((if String.eqb (Method r) "POST"
          && String.eqb (ContentType r) form_urlencoded
       then NewTestResult <$> Form r else None) = None
      /\ fst (handleDefault r s Http.NewRecorder) = s
      /\ final_status (snd (handleDefault r s Http.NewRecorder)) <> 200).
Proof.
  unfold handleDefault.
  destruct (String.eqb (Method r) "POST"); simpl;
    [| right; repeat split; discriminate].
  destruct (String.eqb (ContentType r) form_urlencoded); simpl;
    [| right; repeat split; discriminate].
  destruct (Form r) as [vs |]; simpl;
    [| right; repeat split; discriminate].
  left. exists vs. repeat split.
Qed.

Lemma receive_bounded (s : service) :
  Z.of_nat (length (results s)) <= BufferSize ->
  Z.of_nat (length (results (receive s))) <= BufferSize.
Proof.
  intros H. unfold receive.
  destruct (results s) as [| r rest] eqn:Hq; [now rewrite Hq |].
  rewrite length_cons in H. cbn [results]. lia.
Qed.

(** X23. The collector's channel never holds more than ten records:
    whatever requests arrive and whenever the writer receives, a queue
    within the bound stays within the bound. *)
Theorem collector_queue_bounded (evs : list event) (s : service) :
  Z.of_nat (length (results s)) <= BufferSize ->
  Z.of_nat (length (results (fst (run evs s)))) <= BufferSize.
Proof.
  revert s. induction evs as [| ev evs IH]; intros s Hs; [exact Hs |].
  destruct ev as [r |]; simpl.
  - destruct (handleDefault r s Http.NewRecorder) as [s' w] eqn:Hh.
    specialize (IH s').
    destruct (run evs s') as [s'' codes]. simpl in *. apply IH.
    destruct (handleDefault_cases r s)
      as [(vs & _ & _ & Hrun) | (_ & Hrun & _)];
      rewrite Hh in Hrun; simpl in Hrun.
    + injection Hrun as -> _. now apply try_send_bounded.
    + now subst.
  - apply IH. now apply receive_bounded.
Qed.

Definition a_post (vs : Values) : Request :=
  {| Method := "POST"; ContentType := form_urlencoded; Form := Some vs |}.

Lemma collector_queue_bounded_witness :
  Z.of_nat (length (results NewCollectService)) <= BufferSize
  /\ Z.of_nat (length (results (fst (run (replicate 12 (Arrives (a_post ∅)))
                                         NewCollectService)))) <= BufferSize.
Proof.
  split; [simpl; unfold BufferSize; lia |].
  apply collector_queue_bounded. simpl. unfold BufferSize. lia.
Defined.

(** X24. Nothing is invented, duplicated or reordered on the way to
    the file: after any run of events, the rows handed to the CSV
    writer followed by the records still queued are the earlier rows
    and queue followed by some of the records offered by the requests
    of the run, in the order of their arrival. *)
Theorem collector_keeps_order (evs : list event) (s : service) :
  exists accepted,
    accepted `sublist_of` offered evs
    /\ (rows (fst (run evs s)) ++ map Slice (results (fst (run evs s))))%list
       = (rows s ++ map Slice (results s) ++ map Slice accepted)%list.
Proof.
  revert s. induction evs as [| ev evs IH]; intros s.
  - exists []. split; [constructor |]. simpl. now rewrite app_nil_r.
  - destruct ev as [r |]; simpl.
    + destruct (handleDefault r s Http.NewRecorder) as [s' w] eqn:Hh.
      destruct (IH s') as (acc & Hsub & Heq).
      destruct (run evs s') as [s'' codes]. simpl in *.
      unfold offered in *. simpl.
      destruct (handleDefault_cases r s)
        as [(vs & Hpost & Hform & Hrun) | (Hnone & Hrun & _)];
        rewrite Hh in Hrun; simpl in Hrun.
      * injection Hrun as -> _. rewrite Hpost, Hform. simpl.
        unfold try_send in Heq.
        destruct (Z.of_nat (length (results s)) <? BufferSize).
        -- exists (NewTestResult vs :: acc).
           split; [now constructor |].
           rewrite Heq. simpl. rewrite map_app. simpl.
           now rewrite <- !app_assoc.
        -- exists acc. split; [now constructor | exact Heq].
      * subst s'. rewrite Hnone. exists acc. split; assumption.
    + destruct (IH (receive s)) as (acc & Hsub & Heq).
      exists acc. split; [exact Hsub |].
      rewrite Heq. unfold receive.
      destruct (results s) as [| r rest] eqn:Hq; simpl;
        [now rewrite Hq |].
      now rewrite <- !app_assoc.
Qed.

Lemma burst_from (forms : list Values) (s : service) :
  Z.of_nat (length (results s)) <= BufferSize ->
  run (map (fun vs => Arrives (a_post vs)) forms) s
  = ({| results :=
          (results s
           ++ take (Z.to_nat BufferSize - length (results s))
                   (map NewTestResult forms))%list;
        rows := rows s |},
     replicate (length forms) 200).
Proof.
  revert s. induction forms as [| vs forms IH]; intros s Hs; simpl.
  - rewrite take_nil, app_nil_r. now destruct s.
  - unfold try_send.
    destruct (Z.ltb_spec (Z.of_nat (length (results s))) BufferSize)
      as [Hlt | Hge].
    + rewrite IH by (simpl; rewrite length_app; simpl; lia).
      simpl. rewrite length_app. simpl.
      replace (Z.to_nat BufferSize - length (results s))%nat
        with (S (Z.to_nat BufferSize - (length (results s) + 1)))%nat
        by lia.
      simpl. now rewrite <- app_assoc.
    + rewrite IH by exact Hs.
      replace (Z.to_nat BufferSize - length (results s))%nat with 0%nat
        by lia.
      reflexivity.
Qed.

(** X25. A burst of well-formed posts that the writer does not get to
    interleave with leaves the first ten records in the channel and
    drops the others, and every one of the requests, dropped or not, is
    answered 200. *)
Theorem collector_burst (forms : list Values) :
  run (map (fun vs => Arrives (a_post vs)) forms) NewCollectService
  = ({| results := take 10 (map NewTestResult forms); rows := [] |},
     replicate (length forms) 200).
Proof.
  rewrite burst_from by (simpl; unfold BufferSize; lia). reflexivity.
Qed.

End CollectorFacts.

Module MockFacts.
Import Go TesterControl Mock.

(** What [handleMock] checks before it looks at the status word. *)
Definition valid (p : params) : Prop :=
  0 <= Duration p
  /\ 0 <= Min (Response_HeaderLatency p) <= Max (Response_HeaderLatency p)
  /\ 0 <= Min (Response_Duration p) <= Max (Response_Duration p).

Ltac run_handleMock :=
  unfold handleMock; simpl;
  repeat match goal with
  | |- context [ String.eqb ?a ?b ] => destruct (String.eqb_spec a b)
  | |- context [ match Body ?r with _ => _ end ] =>
      destruct (Body r) as [| ? ? | ?] eqn:?
  | |- context [ Z.ltb ?a ?b ] => destruct (Z.ltb_spec a b)
  | |- context [ Z.gtb ?a ?b ] => destruct (Z.gtb_spec a b)
  | |- context [ Z.eqb ?a ?b ] => destruct (Z.eqb_spec a b)
  end; simpl;
  unfold Http.StatusOK, Http.StatusBadRequest,
    Http.StatusMethodNotAllowed, Http.StatusServiceUnavailable.

Ltac clean_mock :=
  repeat match goal with
  | H : _ /\ _ |- _ => destruct H
  | H : exists _, _ |- _ => destruct H
  | H : Decoded _ = Decoded _ |- _ => injection H as <-
  | H : _ = Decoded _ |- _ => discriminate H
  | H : Some _ = Some _ |- _ => discriminate H
  end.

(** X26. [handleMock] answers 200 exactly when the method is POST, the
    body decodes to parameters whose duration is not negative and whose
    two bands satisfy [0 <= min <= max], and the status word is
    [ready]; the service is then [running] until [now + duration] with
    those parameters, and one reset is scheduled after [duration]. *)
Theorem handleMock_answers (now : Z) (req : Request) (s : service) :
  let out := handleMock now req s Http.NewRecorder in
  (Http.wroteHeader (snd out) = Some 200 <->
     Method req = "POST"
     /\ exists p, Body req = Decoded p /\ valid p
                  /\ status s = statusReady)
  /\ (Http.wroteHeader (snd out) = Some 200 ->
      status (fst out) = statusRunning
      /\ Body req = Decoded (s_params (fst out))
      /\ startedAt (fst out) = now
      /\ runningUntil (fst out) = now + Duration (s_params (fst out))
      /\ resets (fst out)
         = (resets s ++ [Duration (s_params (fst out))])%list).
Proof.
  unfold valid. run_handleMock; (split; [split; intros | intros]);
    clean_mock;
    try congruence; try lia;
    try (split; [assumption |]; eexists;
         repeat split; (reflexivity || assumption || lia));
    try (repeat split; congruence).
Qed.

Definition bands (hmin hmax rmin rmax : Z) : params :=
  {| Duration := 300 * Second;
     Response_HeaderLatency := {| Min := hmin; Max := hmax |};
     Response_Duration := {| Min := rmin; Max := rmax |} |}.

Definition a_config (p : params) : Request :=
  {| Method := "POST"; Body := Decoded p |}.

Definition readme_bands : params :=
  bands (10 * Millisecond) (50 * Millisecond)
        (30 * Millisecond) (100 * Millisecond).

Lemma handleMock_answers_witness :
  let out := handleMock 1000 (a_config readme_bands) NewService
               Http.NewRecorder in
  Http.wroteHeader (snd out) = Some 200
  /\ status (fst out) = statusRunning
  /\ runningUntil (fst out) = 1000 + 300 * Second.
Proof.
  intros out.
  destruct (handleMock_answers 1000 (a_config readme_bands) NewService)
    as [_ Hrun].
  split; [reflexivity |].
  destruct (Hrun eq_refl) as (Hs & _ & _ & Hu & _).
  split; [exact Hs | exact Hu].
Defined.

(** X27. Unlike the tester's handler, [handleMock] returns right after
    a refusal: whenever its answer is not 200 (400, 405 or 503), the
    status word, the start and end times and the scheduled resets are
    what they were.  The parameters are not covered: a body that
    decodes replaces them before any check. *)
Theorem handleMock_refusal_keeps_run (now : Z) (req : Request)
    (s : service) :
  let out := handleMock now req s Http.NewRecorder in
  Http.wroteHeader (snd out) <> Some 200 ->
  (Http.wroteHeader (snd out) = Some 400
   \/ Http.wroteHeader (snd out) = Some 405
   \/ Http.wroteHeader (snd out) = Some 503)
  /\ status (fst out) = status s
  /\ startedAt (fst out) = startedAt s
  /\ runningUntil (fst out) = runningUntil s
  /\ resets (fst out) = resets s
  /\ (forall p, req = a_config p -> s_params (fst out) = p).
Proof.
  run_handleMock; intros Hcode; try congruence;
    (split; [auto |]); repeat split;
    intros p0 Hreq; subst req; simpl in *; congruence.
Qed.

Lemma handleMock_refusal_keeps_run_witness :
  let running := fst (handleMock 1000 (a_config readme_bands) NewService
                                 Http.NewRecorder) in
  let out := handleMock 5000 (a_config (bands 0 0 0 0)) running
               Http.NewRecorder in
  Http.wroteHeader (snd out) = Some 503
  /\ runningUntil (fst out) = runningUntil running
  /\ resets (fst out) = resets running
  /\ s_params (fst out) = bands 0 0 0 0.
Proof.
  intros running out.
  destruct (handleMock_refusal_keeps_run 5000 (a_config (bands 0 0 0 0))
              running) as (_ & _ & _ & Hu & Hr & Hp); [discriminate |].
  split; [reflexivity |]. split; [exact Hu |]. split; [exact Hr |].
  apply Hp. reflexivity.
Defined.

(** ** The traffic handler *)

Lemma draw_delay_in_band (band : latency) (raw : Z) :
  0 <= Min band <= Max band -> Max band < 2 ^ 63 ->
  exists d,
    draw_delay band raw = Ok d
    /\ Min band <= d <= Max band
    /\ (Min band < Max band -> d < Max band).
Proof.
  intros Hb Hmax. unfold draw_delay.
  rewrite (TesterControlFacts.int64_small (Max band - Min band)) by lia.
  destruct (Z.gtb_spec (Max band - Min band) 0) as [Hpos | Hzero].
  - unfold Tester.Int64N.
    destruct (Z.leb_spec (Max band - Min band) 0) as [? | _]; [lia |].
    pose proof (Z.mod_pos_bound raw (Max band - Min band) ltac:(lia)) as Hn.
    simpl. rewrite TesterControlFacts.int64_small by lia.
    eexists. split; [reflexivity |]. lia.
  - exists (Min band). split; [reflexivity |]. lia.
Qed.

(** X28. The traffic handler of a running mock whose two bands satisfy
    [0 <= min <= max]: it does not fail, answers 200, and there are a
    header delay [head] and a response delay [resp], each inside its
    band and below the upper end whenever the band is not a single
    point, such that the sleeps add up to the larger of the two, and
    the body is a single newline when [resp] exceeds [head] and empty
    otherwise. *)
Theorem handleDefault_delays (raw_resp raw_head : Z) (s : service) :
  status s = statusRunning ->
  let hl := Response_HeaderLatency (s_params s) in
  let rd := Response_Duration (s_params s) in
  0 <= Min hl <= Max hl -> Max hl < 2 ^ 63 ->
  0 <= Min rd <= Max rd -> Max rd < 2 ^ 63 ->
  exists out head resp,
    handleDefault raw_resp raw_head s Http.NewRecorder = Ok out
    /\ Min hl <= head <= Max hl /\ (Min hl < Max hl -> head < Max hl)
    /\ Min rd <= resp <= Max rd /\ (Min rd < Max rd -> resp < Max rd)
    /\ TesterControlFacts.total (sleeps out) = Z.max head resp
    /\ Http.wroteHeader (response out) = Some 200
    /\ Http.written (response out)
       = if head <? resp then [String "010"%char EmptyString] else [].
Proof.
  intros Hrun hl rd Hhl Hhmax Hrd Hrmax.
  destruct (draw_delay_in_band hl raw_head Hhl Hhmax)
    as (head & Hh & Hhb & Hhs).
  destruct (draw_delay_in_band rd raw_resp Hrd Hrmax)
    as (resp & Hr & Hrb & Hrs).
  unfold handleDefault. rewrite Hrun. simpl.
  fold rd hl. rewrite Hr, Hh. simpl.
  rewrite (TesterControlFacts.int64_small (resp - head)) by lia.
  destruct (Z.leb_spec (resp - head) 0) as [Hle | Hgt];
    destruct (Z.gtb_spec head 0) as [Hpos | Hnp];
    eexists _, head, resp; (split; [reflexivity |]);
    repeat split; try (apply Hhb || apply Hrb || assumption);
    simpl; try lia;
    destruct (Z.ltb_spec head resp) as [Hlt | Hge];
    (reflexivity || lia).
Qed.

Lemma handleDefault_delays_witness :
  let running := fst (handleMock 1000 (a_config readme_bands) NewService
                                 Http.NewRecorder) in
  exists out,
    handleDefault 123456789 987654321 running Http.NewRecorder = Ok out
    /\ Http.wroteHeader (response out) = Some 200.
Proof.
  intros running.
  destruct (handleDefault_delays 123456789 987654321 running eq_refl)
    as (out & head & resp & Hrun & _ & _ & _ & _ & _ & Hcode & _).
  - split; now vm_compute.
  - now vm_compute.
  - split; now vm_compute.
  - now vm_compute.
  - exists out. split; assumption.
Defined.

(** X29. The traffic handler never panics, whatever parameters are
    stored and whatever the generator returns: the random draw is made
    only for a band of positive width.  When the mock is not running it
    answers 503 without any sleep. *)
Theorem handleDefault_never_panics (raw_resp raw_head : Z) (s : service) :
  (exists out, handleDefault raw_resp raw_head s Http.NewRecorder = Ok out)
  /\ (status s <> statusRunning ->
      exists out,
        handleDefault raw_resp raw_head s Http.NewRecorder = Ok out
        /\ sleeps out = []
        /\ Http.wroteHeader (response out) = Some 503).
Proof.
  assert (Hdraw : forall band raw, exists d, draw_delay band raw = Ok d).
  { intros band raw. unfold draw_delay, Tester.Int64N.
    destruct (Z.gtb_spec (int64 (Max band - Min band)) 0) as [Hpos | Hz];
      [| eexists; reflexivity].
    destruct (Z.leb_spec (int64 (Max band - Min band)) 0); [lia |].
    eexists. reflexivity. }
  unfold handleDefault. split.
  - destruct (negb (status s =? statusRunning)); [eexists; reflexivity |].
    destruct (Hdraw (Response_Duration (s_params s)) raw_resp) as [r ->].
    destruct (Hdraw (Response_HeaderLatency (s_params s)) raw_head) as [h ->].
    simpl. destruct (int64 (r - h) <=? 0); eexists; reflexivity.
  - intros Hstop.
    destruct (Z.eqb_spec (status s) statusRunning); [contradiction |].
    simpl. eexists. repeat split.
Qed.

Lemma handleDefault_never_panics_witness :
  exists out,
    handleDefault 5 7 NewService Http.NewRecorder = Ok out
    /\ sleeps out = []
    /\ Http.wroteHeader (response out) = Some 503.
Proof.
  destruct (handleDefault_never_panics 5 7 NewService) as [_ Hstop].
  apply Hstop. discriminate.
Defined.

End MockFacts.

Module MiddlewareFacts.
Import Middleware.

Lemma wrap_loop_app (chain : HandlerFunc)
    (l1 l2 : list (HandlerFunc -> HandlerFunc)) :
  wrap_loop chain (l1 ++ l2) = wrap_loop (wrap_loop chain l1) l2.
Proof. revert chain. induction l1; intros chain; simpl; auto. Qed.

(** X30. [WrapHandlerFuncs] nests the wrappers in the order they are
    given, the first one outermost; so the chain the services build
    with [DrainAndCloseHandler] and [DebugHandler] writes the debug line
    first, then runs the handler, and drains and closes the body after
    the handler has returned, whatever the handler does. *)
Theorem WrapHandlerFuncs_order (h : HandlerFunc)
    (wraps : list (HandlerFunc -> HandlerFunc)) (done : list step) :
  WrapHandlerFuncs h wraps = foldr (fun wrap chain => wrap chain) h wraps
  /\ WrapHandlerFuncs h [DrainAndCloseHandler; DebugHandler] done
     = (h (done ++ [DebugLine]) ++ [DrainBody; CloseBody])%list
  /\ WrapHandlerFuncs h [DrainAndCloseHandler] done
     = (h done ++ [DrainBody; CloseBody])%list.
Proof.
  split; [| split; reflexivity].
  unfold WrapHandlerFuncs. induction wraps as [| wrap wraps IH];
    [reflexivity |].
  simpl. rewrite wrap_loop_app. simpl. now rewrite IH.
Qed.

End MiddlewareFacts.
